(** * bbot: the differential HTTP response comparator

    A shallow embedding of [bbot/core/helpers/diff.py] (class [HttpCompare])
    and the properties of its calibration and comparison protocol.

    The comparator talks to four collaborators that live outside the file:
    the transport ([parent_helper.request]), the token source
    ([parent_helper.rand_string]), the markup parser
    ([json.loads (xmltojson.parse _)]) and DeepDiff's distance.  They are the
    variables of the section below, together with the truth value of a
    response object, which for the responses of [requests] is [ok].
    Everything the class itself does is
    written out: the order of the calls, the exception raised during
    calibration, the in-place deletion of header names, the fail-fast
    classification.

    Conventions:
    - a header collection is a mutable dictionary object; it lives in a heap
      and a response refers to it through a location, so that the [del]
      statements of [compare_headers] are visible to every holder of the
      object;
    - the transport hands out [requests] responses.  The headers of one are
      a case-insensitive dictionary: it keeps every name as the server
      spelled it, hands out these spellings when it is iterated, and finds
      and deletes a name whatever its case.  A header collection is the map
      from the names as spelled to their values; one collection never holds
      two spellings of a name, and nothing below depends on it.  A response
      is true as an object unless its status code is in 400..599;
    - a finite Python float is the rational it denotes, [0.0] is [0%Q] and
      [!=] on floats is the negation of [Qeq_bool];
    - [log.debug] calls have no effect on the result and are left out. *)

From Stdlib Require Import QArith.
From stdpp Require Import base option list gmap strings pretty.

Open Scope string_scope.

(** ** Strings *)

(** Python's [needle in hay] on [str]. *)
Fixpoint str_in (needle hay : string) : bool :=
  String.prefix needle hay
  || match hay with
     | EmptyString => false
     | String _ rest => str_in needle rest
     end.

Definition newline : Ascii.ascii := Ascii.ascii_of_nat 10.

(** Python's [s.split("\n")]: never empty, one more piece than newlines. *)
Fixpoint split_lines (s : string) : list string :=
  match s with
  | EmptyString => [EmptyString]
  | String c rest =>
      if Ascii.eqb c newline then EmptyString :: split_lines rest
      else match split_lines rest with
           | piece :: pieces => String c piece :: pieces
           | [] => [String c EmptyString]
           end
  end.

Definition apostrophe : Ascii.ascii := Ascii.ascii_of_nat 39.

(** Python's [s.split(sep)] for a separator of one character. *)
Fixpoint split_on (sep : Ascii.ascii) (s : string) : list string :=
  match s with
  | EmptyString => [EmptyString]
  | String c rest =>
      if Ascii.eqb c sep then EmptyString :: split_on sep rest
      else match split_on sep rest with
           | piece :: pieces => String c piece :: pieces
           | [] => [String c EmptyString]
           end
  end.

(** Python's [c.lower()] on a character of a header line, which
    [http.client] decodes as ISO-8859-1: the capitals A-Z and the accented
    capitals 192..222 other than the multiplication sign move up by 32. *)
Definition lower_char (c : Ascii.ascii) : Ascii.ascii :=
  let n := Ascii.nat_of_ascii c in
  if (Nat.leb 65 n && Nat.leb n 90)
     || (Nat.leb 192 n && Nat.leb n 222 && negb (Nat.eqb n 215))
  then Ascii.ascii_of_nat (n + 32)
  else c.

(** Python's [s.lower()]. *)
Fixpoint lower (s : string) : string :=
  match s with
  | EmptyString => EmptyString
  | String c rest => String (lower_char c) (lower rest)
  end.

(** ** Dictionaries *)

(** A header collection: the names as the response spells them, with their
    values. *)
Abbreviation Headers := (gmap string string).

(** [del t[k]] on a case-insensitive dictionary: the entry whose name is [k]
    up to case goes; [KeyError] when there is none, which [compare_headers]
    swallows. *)
Definition delitem (k : string) (t : Headers) : Headers :=
  filter (λ entry, lower entry.1 ≠ lower k) t.

(** [add_headers] and [add_cookies]: a [dict] in insertion order. *)
Abbreviation dict := (list (string * string)).

(** Truth value of an optional dictionary argument: [None] and [{}] are
    false. *)
Definition dict_truth (d : option dict) : bool :=
  match d with
  | Some (_ :: _) => true
  | _ => false
  end.

Definition dict_len (d : option dict) : nat :=
  match d with
  | Some kvs => length kvs
  | None => 0
  end.

(** [list(d.values())[0]], read only where [len(d) == 1]. *)
Definition first_value (d : option dict) : string :=
  match d with
  | Some ((_, v) :: _) => v
  | _ => EmptyString
  end.

(** ** Responses and the heap of header objects *)

Definition loc := positive.
Bind Scope positive_scope with loc.

Record Response := mkResponse {
  status_code : Z;
  headers : loc;
  text : string
}.

(** The truth value of a [requests] response: [__bool__] returns [ok], which
    is false exactly when [raise_for_status] would raise, for a status code
    in 400..599. *)
Definition ok (r : Response) : bool :=
  negb ((400 <=? status_code r)%Z && (status_code r <? 600)%Z).

(** The header dictionary stored at a location. *)
Definition headers_at (heap : gmap loc Headers) (l : loc) : Headers :=
  default ∅ (heap !! l).

(** ** What DeepDiff reports on two header collections

    [DeepDiff(t1, t2, ignore_order=True, view="tree")] walks the two
    dictionaries by the names they hand out, that is as they are spelled:
    names only in [t2], names in both with different values, names only in
    [t1].  Each report is a set of tree nodes, one per name; a node is
    modelled by its name, and the order within a report is not modelled.  A
    report that would be empty is absent from the result and the lookup
    raises [KeyError], which [compare_headers] swallows: the empty list
    stands for it. *)

Definition dict_keys (t : Headers) : list string := (map_to_list t).*1.

Definition dictionary_item_added (t1 t2 : Headers) : list string :=
  filter (λ k, t1 !! k = None) (dict_keys t2).

Definition values_changed (t1 t2 : Headers) : list string :=
  filter (λ k, is_Some (t2 !! k) ∧ t1 !! k ≠ t2 !! k) (dict_keys t1).

Definition dictionary_item_removed (t1 t2 : Headers) : list string :=
  filter (λ k, t2 !! k = None) (dict_keys t1).

(** [str(x)] of the node for the name [k] reads
    [<root['k'] t1:..., t2:...>].  The model keeps it up to the bracket that
    closes the path: [split("'")[1]] reads nothing beyond the second
    apostrophe of the text. *)
Definition node_str (k : string) : string := "<root['" ++ k ++ "']".

(** [header_value = str(x).split("'")[1]] *)
Definition header_value (x : string) : string :=
  nth 1 (split_on apostrophe (node_str x)) EmptyString.

(** ** Exceptions *)

Inductive exn :=
| HttpCompareError (msg : string)
| AttributeError.

Inductive outcome (A : Type) :=
| Ret (a : A)
| Raise (e : exn).
Arguments Ret {A} a.
Arguments Raise {A} e.

(** The volatile names every instance starts with. *)
Definition seeded_ignore_headers : list string :=
  ["date"; "last-modified"; "content-length"].

Section Comparator.

(** ** Collaborators *)

(** What [json.loads (xmltojson.parse _)] yields, up to Python's [==]. *)
Context {json : Type} `{!EqDecision json}.

(** [None] is [ExpatError]. *)
Variable xmltojson_parse : string → option json.

(** A parsed body: the markup tree, or the lines of the text. *)
Inductive content :=
| Tree (j : json)
| Lines (ls : list string).

#[global] Instance content_eq_dec : EqDecision content.
Proof. solve_decision. Defined.

(** [DeepDiff(c1, c2, get_deep_distance=True,
    cutoff_intersection_for_pairs=1)["deep_distance"]]. *)
Variable deep_distance : content → content → Q.

(** [rand_string draw n]: the token of the [draw]-th call. *)
Variable rand_string : nat → nat → string.

(** Python truth value of a response object; [ok] for the responses of
    [requests]. *)
Variable truth : Response → bool.

(** ** The world: heap, transport, call log *)

Inductive call :=
| CallRandString (n : nat)
| CallRequest (url : string) (hdrs cookies : option dict)
              (allow_redirects : bool)
| CallSleep (seconds : nat)
| CallParse (body : string)
| CallDiffHeaders (l1 l2 : loc)
| CallDistance (c1 c2 : content).

Record World := mkWorld {
  heap : gmap loc Headers;
  (** what the transport answers to the coming requests; [None] is a
      request that got no response *)
  pending : list (option Response);
  (** number of tokens drawn so far *)
  draws : nat;
  (** calls made to the collaborators, oldest first *)
  calls : list call
}.

Definition M (A : Type) : Type := World → outcome A * World.

#[global] Instance M_ret : MRet M := λ A a w, (Ret a, w).
#[global] Instance M_bind : MBind M := λ A B k m w,
  match m w with
  | (Ret a, w') => k a w'
  | (Raise e, w') => (Raise e, w')
  end.

Definition raise {A} (e : exn) : M A := λ w, (Raise e, w).

Definition record (c : call) : M unit := λ w,
  (Ret (), mkWorld (heap w) (pending w) (draws w) (calls w ++ [c])%list).

(** [parent_helper.rand_string(n)] *)
Definition draw_token (n : nat) : M string := λ w,
  (Ret (rand_string (draws w) n),
   mkWorld (heap w) (pending w) (S (draws w)) (calls w ++ [CallRandString n])%list).

(** [parent_helper.request(url, headers=.., cookies=.., allow_redirects=..)] *)
Definition request (url : string) (hdrs cookies : option dict)
    (allow_redirects : bool) : M (option Response) := λ w,
  (Ret (default None (head (pending w))),
   mkWorld (heap w) (tail (pending w)) (draws w)
           (calls w ++ [CallRequest url hdrs cookies allow_redirects])%list).

Definition sleep (seconds : nat) : M unit := record (CallSleep seconds).

(** [json.loads(xmltojson.parse(body))] *)
Definition parse_markup (body : string) : M (option json) :=
  _ ← record (CallParse body); mret (xmltojson_parse body).

(** [try: del h[k] except KeyError: pass] on the object at [l]. *)
Definition del_header (l : loc) (k : string) : M unit := λ w,
  (Ret (), mkWorld (alter (delitem k) l (heap w)) (pending w) (draws w) (calls w)).

Definition read_headers (l : loc) : M Headers := λ w,
  (Ret (headers_at (heap w) l), w).

(** ** The class *)

Record HttpCompare := mkHttpCompare {
  baseline_url : string;
  baseline : Response;
  baseline_json : content;
  baseline_ignore_headers : list string;
  baseline_body_distance : Q
}.

Definition gen_cache_buster : M string :=
  token ← draw_token 6; mret ("?" ++ token ++ "=1").

(** The loop of [compare_headers] over the ignored names. *)
Fixpoint del_ignored (ignored : list string) (headers_1 headers_2 : loc)
    : M unit :=
  match ignored with
  | [] => mret ()
  | ignored_header :: more =>
      _ ← del_header headers_1 ignored_header;
      _ ← del_header headers_2 ignored_header;
      del_ignored more headers_1 headers_2
  end.

(** [compare_headers]; [ignored] is [self.baseline_ignore_headers] at the
    time of the call. *)
Definition compare_headers (ignored : list string) (headers_1 headers_2 : loc)
    : M (list string) :=
  _ ← del_ignored ignored headers_1 headers_2;
  _ ← record (CallDiffHeaders headers_1 headers_2);
  t1 ← read_headers headers_1;
  t2 ← read_headers headers_2;
  mret ((header_value <$> dictionary_item_added t1 t2)
        ++ (header_value <$> values_changed t1 t2)
        ++ (header_value <$> dictionary_item_removed t1 t2))%list.

Definition compare_body (content_1 content_2 : content) : M Q :=
  if decide (content_1 = content_2) then mret 0%Q
  else
    _ ← record (CallDistance content_1 content_2);
    mret (deep_distance content_1 content_2).

(** The [try] block of [__init__]: one [ExpatError] handler around both
    parses. *)
Definition parse_baselines (text_1 text_2 : string) : M (content * content) :=
  let fallback := (Lines (split_lines text_1), Lines (split_lines text_2)) in
  parsed_1 ← parse_markup text_1;
  match parsed_1 with
  | None => mret fallback
  | Some baseline_1_json =>
      parsed_2 ← parse_markup text_2;
      match parsed_2 with
      | None => mret fallback
      | Some baseline_2_json => mret (Tree baseline_1_json, Tree baseline_2_json)
      end
  end.

(** The [try] block of [compare]. *)
Definition parse_subject (body : string) : M content :=
  parsed ← parse_markup body;
  match parsed with
  | None => mret (Lines (split_lines body))
  | Some subject_json => mret (Tree subject_json)
  end.

(** [HttpCompare(baseline_url, parent_helper)]: the instance if [__init__]
    returns, the exception if it raises.  [__init__] assigns [self.baseline]
    before it compares the status codes, but on an object that nobody else
    holds: when it raises, the constructor call hands the caller the
    exception and no object. *)
Definition HttpCompare_init (url : string) : M HttpCompare :=
  buster_1 ← gen_cache_buster;
  baseline_1 ← request (url ++ buster_1) None None false;
  _ ← sleep 2;
  buster_2 ← gen_cache_buster;
  baseline_2 ← request (url ++ buster_2) None None false;
  match baseline_1, baseline_2 with
  | Some b1, Some b2 =>
      if negb (status_code b1 =? status_code b2)%Z
      then raise (HttpCompareError "Can't get baseline from source URL")
      else
        jsons ← parse_baselines (text b1) (text b2);
        dynamic_headers ←
          compare_headers seeded_ignore_headers (headers b1) (headers b2);
        distance ← compare_body jsons.1 jsons.2;
        mret (mkHttpCompare url b1 jsons.1
                (seeded_ignore_headers ++ dynamic_headers)%list distance)
  | _, _ => raise AttributeError
  end.

(** The reflection test of [compare]: headers first, cookies only when no
    header was given. *)
Definition reflected (add_headers add_cookies : option dict) (body : string)
    : bool :=
  if dict_truth add_headers then
    Nat.eqb (dict_len add_headers) 1 && str_in (first_value add_headers) body
  else if dict_truth add_cookies then
    Nat.eqb (dict_len add_cookies) 1 && str_in (first_value add_cookies) body
  else false.

Definition list_truth {A} (l : list A) : bool :=
  match l with [] => false | _ => true end.

(** The result triple: match, reason, reflection. *)
Definition verdict : Type := bool * option string * bool.

Definition compare (self : HttpCompare) (subject : string)
    (add_headers add_cookies : option dict) : M verdict :=
  buster ← gen_cache_buster;
  subject_response ← request (subject ++ buster) add_headers None false;
  match subject_response with
  | None => mret (true, Some "403", false)
  | Some response =>
      if negb (truth response) then mret (true, Some "403", false)
      else
        let reflection := reflected add_headers add_cookies (text response) in
        subject_json ← parse_subject (text response);
        if negb (status_code (baseline self) =? status_code response)%Z
        then mret (false, Some "code", reflection)
        else
          different_headers ←
            compare_headers (baseline_ignore_headers self)
                            (headers (baseline self)) (headers response);
          if list_truth different_headers
          then mret (false, Some "header", reflection)
          else
            subject_body_distance ← compare_body (baseline_json self) subject_json;
            if negb (Qeq_bool (baseline_body_distance self) subject_body_distance)
            then mret (false, Some "body", reflection)
            else mret (true, None, false)
  end.

End Comparator.

(** ** Specification-level views *)

(** A header collection with the names of [ignored] deleted, in the order of
    the loop. *)
Definition without (ignored : list string) (t : Headers) : Headers :=
  foldl (λ acc k, delitem k acc) t ignored.

(** The name [k] is on the list [ignored], up to case. *)
Definition ignores (ignored : list string) (k : string) : Prop :=
  lower k ∈ lower <$> ignored.

#[global] Instance ignores_dec (ignored : list string) (k : string) :
  Decision (ignores ignored k).
Proof. unfold ignores. apply _. Defined.

(** The part of a name before its first apostrophe; the name itself when
    it has none. *)
Fixpoint before_apostrophe (k : string) : string :=
  match k with
  | EmptyString => EmptyString
  | String c rest =>
      if Ascii.eqb c apostrophe then EmptyString
      else String c (before_apostrophe rest)
  end.

(** The names on which two header collections differ, as DeepDiff walks
    them. *)
Definition differing (t1 t2 : Headers) : list string :=
  (dictionary_item_added t1 t2 ++ values_changed t1 t2
   ++ dictionary_item_removed t1 t2)%list.

(** What one of the two objects handed to [compare_headers] holds when the
    call returns. *)
Definition heap_without (ignored : list string) (l1 l2 : loc)
    (hp : gmap loc Headers) : gmap loc Headers :=
  foldl (λ acc k, alter (delitem k) l2 (alter (delitem k) l1 acc)) hp ignored.

(** The list [compare_headers] collects from the three reports. *)
Definition header_diff (t1 t2 : Headers) : list string :=
  ((header_value <$> dictionary_item_added t1 t2)
   ++ (header_value <$> values_changed t1 t2)
   ++ (header_value <$> dictionary_item_removed t1 t2))%list.

(** The reasons the data model of the specification lists. *)
Definition listed_reasons : list (option string) :=
  [None; Some "code"; Some "header"; Some "body"].

(** The reference values a caller can read off an instance. *)
Definition reference_values {json : Type} (self : @HttpCompare json)
    (hp : gmap loc Headers)
    : Z * Headers * content * list string * Q :=
  (status_code (baseline self), headers_at hp (headers (baseline self)),
   baseline_json self, baseline_ignore_headers self,
   baseline_body_distance self).

(** The parsed form of a body: what the two [try] blocks compute for one
    body on its own. *)
Definition structural {json : Type} (parse : string → option json)
    (body : string) : @content json :=
  match parse body with
  | Some j => Tree j
  | None => Lines (split_lines body)
  end.

(** The value [compare_body] returns. *)
Definition body_distance {json : Type} `{!EqDecision json}
    (dist : @content json → @content json → Q) (c1 c2 : @content json) : Q :=
  if decide (c1 = c2) then 0%Q else dist c1 c2.

(** The calls [compare_body] makes. *)
Definition distance_calls {json : Type} `{!EqDecision json}
    (c1 c2 : @content json) : list (@call json) :=
  if decide (c1 = c2) then [] else [CallDistance c1 c2].

(** What the transport answers to the next request. *)
Definition next_answer {json : Type} (w : @World json) : option Response :=
  default None (head (pending w)).

(** A response [compare] goes on to examine: there is one and it is
    true. *)
Definition usable (truth : Response → bool) (answer : option Response)
    : bool :=
  match answer with
  | Some r => truth r
  | None => false
  end.

(** The query string [gen_cache_buster] returns in a world. *)
Definition cache_buster {json : Type} (rand : nat → nat → string)
    (w : @World json) : string :=
  "?" ++ rand (draws w) 6 ++ "=1".

(** The world after one token, one request and the calls [more], with the
    heap [hp]. *)
Definition after_request {json : Type} (w : @World json)
    (request_call : @call json) (more : list (@call json))
    (hp : gmap loc Headers) : @World json :=
  mkWorld hp (tail (pending w)) (S (draws w))
          (calls w ++ CallRandString 6 :: request_call :: more).

(** What the transport answers to the request after the next. *)
Definition second_answer {json : Type} (w : @World json) : option Response :=
  default None (head (tail (pending w))).

(** The forms the [try] block of [__init__] leaves in [baseline_1_json] and
    [baseline_2_json]. *)
Definition calibration_forms {json : Type} (parse : string → option json)
    (text_1 text_2 : string) : @content json * @content json :=
  match parse text_1, parse text_2 with
  | Some j1, Some j2 => (Tree j1, Tree j2)
  | _, _ => (Lines (split_lines text_1), Lines (split_lines text_2))
  end.

(** The parser calls of that block: the second body is not tried once the
    first has failed. *)
Definition calibration_parse_calls {json : Type}
    (parse : string → option json) (text_1 text_2 : string)
    : list (@call json) :=
  match parse text_1 with
  | Some _ => [CallParse text_1; CallParse text_2]
  | None => [CallParse text_1]
  end.

(** The two calibration requests and the pause between them. *)
Definition calibration_calls {json : Type} (rand : nat → nat → string)
    (url : string) (w : @World json) : list (@call json) :=
  [CallRandString 6;
   CallRequest (url ++ "?" ++ rand (draws w) 6 ++ "=1") None None false;
   CallSleep 2;
   CallRandString 6;
   CallRequest (url ++ "?" ++ rand (S (draws w)) 6 ++ "=1") None None false].

(** The world after the two calibration requests and the calls [more], with
    the heap [hp]. *)
Definition after_calibration {json : Type} (rand : nat → nat → string)
    (url : string) (w : @World json) (more : list (@call json))
    (hp : gmap loc Headers) : @World json :=
  mkWorld hp (tail (tail (pending w))) (S (S (draws w)))
          (calls w ++ calibration_calls rand url w ++ more).

(** What [compare_headers] returns inside [compare] when the transport
    answered [response] in the world [w]. *)
Definition different_headers {json : Type} (self : @HttpCompare json)
    (w : @World json) (response : Response) : list string :=
  header_diff
    (without (baseline_ignore_headers self)
             (headers_at (heap w) (headers (baseline self))))
    (without (baseline_ignore_headers self)
             (headers_at (heap w) (headers response))).

(** What [compare_body] returns inside [compare] for [response]. *)
Definition subject_distance {json : Type} `{!EqDecision json}
    (parse : string → option json)
    (dist : @content json → @content json → Q)
    (self : @HttpCompare json) (response : Response) : Q :=
  body_distance dist (baseline_json self) (structural parse (text response)).

(** Whether [compare] gets as far as [compare_headers] in the world [w]. *)
Definition reaches_headers {json : Type} (truth : Response → bool)
    (self : @HttpCompare json) (w : @World json) : bool :=
  match next_answer w with
  | Some response =>
      truth response
      && (status_code (baseline self) =? status_code response)%Z
  | None => false
  end.

Definition is_request {json : Type} (c : @call json) : bool :=
  match c with
  | CallRequest _ _ _ _ => true
  | _ => false
  end.

(** ** A small site to run the comparator on *)

Module Site.

(** Markup is whatever opens with an angle bracket; the tree is the text. *)
Definition parse (body : string) : option string :=
  if String.prefix "<" body then Some body else None.

(** Every two different bodies are 0.12 apart. *)
Definition distance (c1 c2 : @content string) : Q := 12 # 100.

Definition token (draw n : nat) : string :=
  if Nat.even draw then "k3Xw9a" else "Qz81bT".

Definition page : string := "<html><body>hello marker-123</body></html>".

Definition headers_a : Headers :=
  list_to_map [("Date", "Tue, 03 Nov 2026 10:00:00 GMT");
               ("Server", "nginx"); ("ETag", "v1")].
Definition headers_b : Headers :=
  list_to_map [("Date", "Tue, 03 Nov 2026 10:00:02 GMT");
               ("Server", "nginx"); ("ETag", "v2")].
Definition headers_c : Headers :=
  list_to_map [("Date", "Tue, 03 Nov 2026 10:00:05 GMT");
               ("Server", "nginx"); ("ETag", "v3")].
Definition headers_d : Headers :=
  list_to_map [("Date", "Tue, 03 Nov 2026 10:00:02 GMT");
               ("Server", "nginx"); ("ETag", "v1")].

(** Three answers of a server that names a header with an apostrophe. *)
Definition headers_e : Headers :=
  list_to_map [("Date", "Tue, 03 Nov 2026 10:00:00 GMT");
               ("Server", "nginx"); ("X-Owner's-Trace", "a81")].
Definition headers_f : Headers :=
  list_to_map [("Date", "Tue, 03 Nov 2026 10:00:02 GMT");
               ("Server", "nginx"); ("X-Owner's-Trace", "b44")].
Definition headers_g : Headers :=
  list_to_map [("Date", "Tue, 03 Nov 2026 10:00:05 GMT");
               ("Server", "nginx"); ("X-Owner's-Trace", "c07")].

(** The headers of [headers_a] behind a proxy that writes names in lower
    case. *)
Definition headers_h : Headers :=
  list_to_map [("date", "Tue, 03 Nov 2026 10:00:00 GMT");
               ("server", "nginx"); ("etag", "v1")].

Definition objects : gmap loc Headers :=
  list_to_map [(1%positive, headers_a); (2%positive, headers_b);
               (3%positive, headers_c); (4%positive, headers_d);
               (5%positive, headers_e); (6%positive, headers_f);
               (7%positive, headers_g); (8%positive, headers_h)].

Definition world_of (answers : list (option Response)) : @World string :=
  mkWorld objects answers 0 [].

Definition url : string := "http://site.test/".

Definition init := HttpCompare_init parse distance token url.
Definition run_compare := compare parse distance token ok.

Definition answer (code : Z) (l : loc) (body : string) : option Response :=
  Some (mkResponse code l body).

(** The instance calibration builds from the answers at 1 and 2: same page,
    [ETag] differs. *)
Definition calibrated : @HttpCompare string :=
  mkHttpCompare url (mkResponse 200 1%positive page) (Tree page)
    ["date"; "last-modified"; "content-length"; "ETag"] 0.

(** The world calibration leaves behind, with [answers] still to come. *)
Definition calibrated_world (answers : list (option Response))
    : @World string :=
  mkWorld (heap_without seeded_ignore_headers 1%positive 2%positive objects)
    answers 2
    (calibration_calls token url (world_of [])
     ++ [CallParse page; CallParse page;
        CallDiffHeaders 1%positive 2%positive]).

(** An instance whose two calibration bodies differed: noise floor 0.12. *)
Definition noisy : @HttpCompare string :=
  mkHttpCompare url (mkResponse 200 1%positive page) (Tree page)
    ["date"; "last-modified"; "content-length"; "ETag"] (12 # 100).

Definition other_page : string := "<html><body>hello 7f3a</body></html>".
Definition plain_text : string := "upstream timed out".

Definition subject : string := "http://site.test/admin".

Definition redirect : Response := mkResponse 302 3 page.
Definition same_page : Response := mkResponse 200 3 page.
Definition changed_page : Response := mkResponse 200 3 other_page.

(** Worlds right after the calibration of [calibrated], by what the
    transport answers next. *)
Definition world_redirect : @World string := calibrated_world [Some redirect].
Definition world_same : @World string := calibrated_world [Some same_page].
Definition world_changed : @World string :=
  calibrated_world [Some changed_page].
Definition world_silent : @World string :=
  calibrated_world [None; Some same_page].

(** Worlds before calibration. *)
Definition world_unstable : @World string :=
  world_of [answer 200 1 page; answer 500 2 page].
Definition world_date_only : @World string :=
  world_of [answer 200 1 page; answer 200 4 page].
Definition world_half_markup : @World string :=
  world_of [answer 200 1 page; answer 200 2 plain_text].

(** A 404 answer carrying the marker: false as a [requests] response. *)
Definition not_found : Response := mkResponse 404 3 page.
Definition world_not_found : @World string :=
  calibrated_world [Some not_found].

(** A site that answers 404 throughout: the instance calibration builds
    from two such answers, and a third with another body. *)
Definition calibrated_missing : @HttpCompare string :=
  mkHttpCompare url (mkResponse 404 1%positive page) (Tree page)
    ["date"; "last-modified"; "content-length"; "ETag"] 0.
Definition missing_changed : Response := mkResponse 404 3 other_page.
Definition world_missing : @World string :=
  world_of [answer 404 1 page; answer 404 2 page; Some missing_changed].

(** The instance calibration builds from the answers at 5 and 6, and a
    third answer of that server. *)
Definition calibrated_owner : @HttpCompare string :=
  mkHttpCompare url (mkResponse 200 5%positive page) (Tree page)
    ["date"; "last-modified"; "content-length"; "X-Owner"] 0.
Definition owner_page : Response := mkResponse 200 7 page.
Definition world_owner : @World string :=
  world_of [answer 200 5 page; answer 200 6 page; Some owner_page].

Definition one_header : option dict := Some [("X-Injected", "marker-123")].
Definition two_headers : option dict :=
  Some [("X-Injected", "marker-123"); ("X-Other", "marker-123")].
Definition one_cookie : option dict := Some [("session", "marker-123")].
Definition two_cookies : option dict :=
  Some [("session", "marker-123"); ("theme", "dark")].

End Site.

(** ** Further views *)

(** Python's ["\n".join(lines)]. *)
Fixpoint join_lines (lines : list string) : string :=
  match lines with
  | [] => EmptyString
  | [line] => line
  | line :: more => line ++ String newline (join_lines more)
  end.

(** A world with another heap. *)
Definition with_heap {json : Type} (w : @World json)
    (hp : gmap loc Headers) : @World json :=
  mkWorld hp (pending w) (draws w) (calls w).

(** The three kinds of mismatch. *)
Definition mismatch_reasons : list (option string) :=
  [Some "code"; Some "header"; Some "body"].

(** More of the site. *)
Module Cases.

Import Site.

(** The site answers the same page three times; only [Date] and [ETag]
    move. *)
Definition world_stable : @World string :=
  world_of [answer 200 1 page; answer 200 2 page; Some same_page].

(** The transport loses the second calibration request. *)
Definition world_lost : @World string :=
  world_of [answer 200 1 page; None; Some same_page].

(** Two probes in a row after calibration. *)
Definition world_two_probes : @World string :=
  calibrated_world [Some same_page; answer 200 4 page].

End Cases.

(** * The dependency installer

    A shallow embedding of [bbot/core/helpers/depsinstaller/installer.py]
    (class [DepsInstaller]).  What lies outside the file is given from
    outside: the Ansible runner ([ansible_runner.interface.run]), [sudo],
    the terminal behind [getpass], the hashing helper and the process
    environment.  [all_modules_preloaded] is part of the state, because
    [shell] writes into the command dictionaries it holds.  Log messages
    and the [sleep] before each prompt are left out; the directories the
    installer wipes and the status file it writes are recorded.  The setup
    status maps dependency hashes to booleans, as [write_setup_status]
    writes them.  [__init__] and [read_setup_status], which only read the
    configuration, the environment and the status file, are not part of the
    embedding: a host starts from the state they leave. *)

Module Deps.

(** ** Python values and dictionaries *)

Inductive pyval :=
| PyStr (s : string)
| PyBool (b : bool)
| PyInt (z : Z)
| PyNone.

(** [str(v)], as an f-string renders a value. *)
Definition py_str (v : pyval) : string :=
  match v with
  | PyStr s => s
  | PyBool true => "True"
  | PyBool false => "False"
  | PyInt z => pretty z
  | PyNone => "None"
  end.

(** A [dict] with string keys, in insertion order. *)
Abbreviation pydict := (list (string * pyval)).

(** [d[k] = v] *)
Fixpoint dict_set (k : string) (v : pyval) (d : pydict) : pydict :=
  match d with
  | [] => [(k, v)]
  | (k', v') :: more =>
      if String.eqb k k' then (k, v) :: more
      else (k', v') :: dict_set k v more
  end.

(** [d.update(other)] *)
Definition dict_update (d other : pydict) : pydict :=
  foldl (λ acc kv, dict_set kv.1 kv.2 acc) d other.

(** [sep.join(pieces)] *)
Fixpoint str_join (sep : string) (pieces : list string) : string :=
  match pieces with
  | [] => EmptyString
  | [piece] => piece
  | piece :: more => piece ++ sep ++ str_join sep more
  end.

Definition quote : string := String (Ascii.ascii_of_nat 34) EmptyString.

(** ** What a module declares *)

(** A shell dependency: a command line, or a dictionary of arguments for
    Ansible's shell module with the command line under ["cmd"]. *)
Inductive command :=
| CmdStr (line : string)
| CmdDict (entries : list (string * string)).

Fixpoint entries_get (k : string) (entries : list (string * string))
    : option string :=
  match entries with
  | [] => None
  | (k', v) :: more => if String.eqb k k' then Some v else entries_get k more
  end.

Fixpoint entries_set (k v : string) (entries : list (string * string))
    : list (string * string) :=
  match entries with
  | [] => [(k, v)]
  | (k', v') :: more =>
      if String.eqb k k' then (k, v) :: more
      else (k', v') :: entries_set k v more
  end.

(** An Ansible task: one built by [shell], or one a module declares, which
    the installer hands on without looking inside. *)
Inductive task :=
| ShellTask (name : string) (shell_args : list (string * string))
            (executable creates : string)
| ModuleTask (body : string).

(** [preloaded["deps"]] *)
Record dependencies := mkDependencies {
  deps_apt : list string;
  deps_pip : list string;
  deps_shell : list command;
  deps_ansible : list task
}.

(** An entry of [all_modules_preloaded]; [needs_sudo] is
    [preloaded.get("sudo", False) == True]. *)
Record preloaded_module := mkPreloaded {
  deps : dependencies;
  needs_sudo : bool
}.

(** [list(chain( *preloaded["deps"].values()))], of which only the length
    is used. *)
Definition dependency_count (d : dependencies) : nat :=
  length (deps_apt d) + length (deps_pip d) + length (deps_shell d)
  + length (deps_ansible d).

(** ** The Ansible runner *)

Record run_call := mkRunCall {
  rc_playbook : option (list task);
  rc_private_data_dir : string;
  rc_host_pattern : string;
  (** the variables of the one host, ["localhost"] *)
  rc_inventory : pydict;
  rc_module : option string;
  rc_module_args : option string;
  rc_quiet : bool;
  rc_verbosity : nat
}.

(** An event of a run; [event_msg] is [e["event_data"]["res"]["msg"]] where
    the event has one. *)
Record run_event := mkRunEvent {
  event_name : string;
  event_msg : option string
}.

(** What a run does: it raises or it returns a status and its events, and
    either way it leaves some SIGINT handler installed. *)
Inductive run_answer :=
| RunRaises (msg : string) (handler : nat)
| RunReturns (status : string) (events : list run_event) (handler : nat).

(** ** Settings and state *)

(** The configuration [__init__] reads, and the directory it works in. *)
Record settings := mkSettings {
  no_deps : bool;
  ansible_debug : bool;
  force_deps : bool;
  retry_deps : bool;
  ignore_failed_deps : bool;
  data_dir : string
}.

(** The process environment. *)
Record environment := mkEnvironment {
  (** [shutil.which("apt")] finds something *)
  has_apt : bool;
  (** [os.environ.get("VIRTUAL_ENV")] *)
  virtual_env : option string;
  (** [parent_helper.which("python3", "python")] *)
  python_path : option string;
  (** [sys.executable] *)
  sys_executable : string;
  (** [os.geteuid()] *)
  euid : nat
}.

Inductive effect :=
| Wiped (dir : string)
| Ran (call : run_call) (answer : run_answer)
| Prompted (password : string) (accepted : bool).

Record Host := mkHost {
  (** [all_modules_preloaded] *)
  preloaded : gmap string preloaded_module;
  (** [self.setup_status]: dependency hash to outcome *)
  setup_status : gmap string bool;
  (** [self._sudo_password] *)
  sudo_password : option string;
  (** what will be typed at the password prompts, in order *)
  typed : list string;
  (** the installed SIGINT handler *)
  sigint : nat;
  (** number of runs so far *)
  run_count : nat;
  (** what [setup_status.json] holds once this process has written it *)
  status_file : option (gmap string bool);
  (** what was done to the outside, oldest first *)
  effects : list effect
}.

Inductive deps_exn :=
| EOFError
| KeyError (key : string)
| RunnerError (msg : string).

Inductive result (A : Type) :=
| Done (a : A)
| Fail (e : deps_exn).
Arguments Done {A} a.
Arguments Fail {A} e.

Definition D (A : Type) : Type := Host → result A * Host.

#[global] Instance D_ret : MRet D := λ A a h, (Done a, h).
#[global] Instance D_bind : MBind D := λ A B k m h,
  match m h with
  | (Done a, h') => k a h'
  | (Fail e, h') => (Fail e, h')
  end.

Definition fail {A} (e : deps_exn) : D A := λ h, (Fail e, h).

(** [try: body finally: cleanup], for a cleanup that returns nothing. *)
Definition try_finally {A} (body : D A) (cleanup : D unit) : D A := λ h,
  match body h with
  | (Done a, h') =>
      match cleanup h' with
      | (Done _, h'') => (Done a, h'')
      | (Fail e, h'') => (Fail e, h'')
      end
  | (Fail e, h') =>
      match cleanup h' with
      | (Done _, h'') => (Fail e, h'')
      | (Fail e', h'') => (Fail e', h'')
      end
  end.

Definition note (e : effect) : D unit := λ h,
  (Done (), mkHost (preloaded h) (setup_status h) (sudo_password h) (typed h)
                   (sigint h) (run_count h) (status_file h)
                   (effects h ++ [e])%list).

Definition get_sudo_password : D (option string) := λ h,
  (Done (sudo_password h), h).

Definition set_sudo_password (p : string) : D unit := λ h,
  (Done (), mkHost (preloaded h) (setup_status h) (Some p) (typed h)
                   (sigint h) (run_count h) (status_file h) (effects h)).

Definition get_setup_status : D (gmap string bool) := λ h,
  (Done (setup_status h), h).

Definition set_setup_status (k : string) (v : bool) : D unit := λ h,
  (Done (), mkHost (preloaded h) (<[k := v]> (setup_status h))
                   (sudo_password h) (typed h) (sigint h) (run_count h)
                   (status_file h) (effects h)).

Definition get_preloaded : D (gmap string preloaded_module) := λ h,
  (Done (preloaded h), h).

(** The command objects of a module's shell dependencies, as [shell] leaves
    them. *)
Definition set_shell_commands (module : string) (commands : list command)
    : D unit := λ h,
  (Done (),
   mkHost (alter (λ p, mkPreloaded
                         (mkDependencies (deps_apt (deps p)) (deps_pip (deps p))
                                         commands (deps_ansible (deps p)))
                         (needs_sudo p))
                 module (preloaded h))
          (setup_status h) (sudo_password h) (typed h) (sigint h)
          (run_count h) (status_file h) (effects h)).

(** [signal.getsignal(signal.SIGINT)] *)
Definition getsignal : D nat := λ h, (Done (sigint h), h).

(** [signal.signal(signal.SIGINT, handler)] *)
Definition signal (handler : nat) : D unit := λ h,
  (Done (), mkHost (preloaded h) (setup_status h) (sudo_password h) (typed h)
                   handler (run_count h) (status_file h) (effects h)).

Section Installer.

(** ** Collaborators *)

(** [parent_helper.sha1(str(preloaded["deps"])).hexdigest()] *)
Variable sha1_deps : dependencies → string.

(** [parent_helper.sha1(f"{module}_{i}_{command}").hexdigest()] *)
Variable sha1_command : string → nat → command → string.

(** [parent_helper.sha1(str(playbook)).hexdigest()] *)
Variable sha1_playbook : option (list task) → string.

(** [ansible_runner.interface.run]: what the [n]-th run does with a call. *)
Variable runner : nat → run_call → run_answer.

(** Whether [sudo -S -k true] exits with 0 on a password. *)
Variable sudo_accepts : string → bool.

Variable config : settings.
Variable env : environment.

(** [run(...)] *)
Definition run (call : run_call) : D (string * list run_event) := λ h,
  let answer := runner (run_count h) call in
  let after handler :=
    mkHost (preloaded h) (setup_status h) (sudo_password h) (typed h)
           handler (S (run_count h)) (status_file h)
           (effects h ++ [Ran call answer])%list in
  match answer with
  | RunRaises msg handler => (Fail (RunnerError msg), after handler)
  | RunReturns status events handler => (Done (status, events), after handler)
  end.

(** ** [ansible_run] *)

(** The loop over [res.events]. *)
Fixpoint first_failure (events : list run_event) : D string :=
  match events with
  | [] => mret EmptyString
  | e :: more =>
      if String.eqb (event_name e) "runner_on_failed" then
        match event_msg e with
        | Some msg => mret msg
        | None => fail (KeyError "msg")
        end
      else first_failure more
  end.

Definition render_args (args : pydict) : string :=
  str_join " " (map (λ kv, kv.1 ++ "=" ++ quote ++ py_str kv.2 ++ quote) args).

Definition ansible_run (tasks : option (list task)) (module : option string)
    (args ansible_args : option pydict) : D (bool * string) :=
  let _ansible_args := [("ansible_connection", PyStr "local")] in
  let _ansible_args :=
    match ansible_args with
    | Some more => dict_update _ansible_args more
    | None => _ansible_args
    end in
  let module_args :=
    match args with
    | Some (kv :: kvs) => Some (render_args (kv :: kvs))
    | _ => None
    end in
  let playbook :=
    match tasks with
    | Some (t :: ts) => Some (t :: ts)
    | _ => None
    end in
  password ← get_sudo_password;
  let _ansible_args :=
    match password with
    | Some p => dict_set "ansible_become_password" (PyStr p) _ansible_args
    | None => _ansible_args
    end in
  let playbook_hash := sha1_playbook playbook in
  let dir :=
    data_dir config ++ "/"
    ++ match module with
       | Some (String c name) => String c name
       | _ => "playbook_" ++ playbook_hash
       end in
  _ ← note (Wiped dir);
  original_sigint_handler ← getsignal;
  res ← try_finally
          (run (mkRunCall playbook dir "localhost" _ansible_args module
                          module_args (negb (ansible_debug config))
                          (if ansible_debug config then 3 else 0)))
          (signal original_sigint_handler);
  let success := String.eqb res.1 "successful" in
  err ← first_failure res.2;
  mret (success, err).

(** ** The four kinds of dependency *)

Definition pip_install (packages : list string) : D bool :=
  let packages := str_join "," packages in
  let args := [("name", PyStr packages)] in
  let args :=
    match virtual_env env with
    | Some venv =>
        dict_set "virtualenv_python"
          (match python_path env with Some p => PyStr p | None => PyNone end)
          (dict_set "virtualenv" (PyStr venv) args)
    | None => args
    end in
  r ← ansible_run None (Some "pip") (Some args)
        (Some [("ansible_python_interpreter", PyStr (sys_executable env))]);
  mret r.1.

Definition apt_install (packages : list string) : D bool :=
  if negb (has_apt env) then mret true
  else
    let packages := str_join "," packages in
    let args := [("name", PyStr packages); ("state", PyStr "latest");
                 ("update_cache", PyBool true);
                 ("cache_valid_time", PyInt 86400)] in
    r ← ansible_run None (Some "apt") (Some args)
          (Some [("ansible_become", PyBool true);
                 ("ansible_become_method", PyStr "sudo")]);
    mret r.1.

(** The loop of [shell]: the tasks built so far and the command objects as
    they are left. *)
Fixpoint shell_tasks (module : string) (i : nat) (commands : list command)
    : result (list task) * list command :=
  match commands with
  | [] => (Done [], [])
  | command :: more =>
      let command_hash := sha1_command module i command in
      let command_status_file :=
        data_dir config ++ "/command_status/" ++ command_hash in
      let entries :=
        match command with
        | CmdStr line => [("cmd", line)]
        | CmdDict entries => entries
        end in
      match entries_get "cmd" entries with
      | None => (Fail (KeyError "cmd"), command :: more)
      | Some line =>
          let entries :=
            entries_set "cmd" (line ++ " && touch " ++ command_status_file)
                        entries in
          let left :=
            match command with
            | CmdStr _ => command
            | CmdDict _ => CmdDict entries
            end in
          let t :=
            ShellTask (module ++ ".deps_shell step " ++ pretty (S i))
                      entries "/bin/bash" command_status_file in
          match shell_tasks module (S i) more with
          | (Done ts, more') => (Done (t :: ts), left :: more')
          | (Fail e, more') => (Fail e, left :: more')
          end
      end
  end.

(** [shell(module, commands)], where [commands] is the module's own list of
    shell dependencies, as in [install_module]. *)
Definition shell (module : string) (commands : list command) : D bool :=
  let built := shell_tasks module 0 commands in
  _ ← set_shell_commands module built.2;
  match built.1 with
  | Fail e => fail e
  | Done tasks =>
      r ← ansible_run (Some tasks) None None None;
      mret r.1
  end.

Definition tasks (module : string) (ansible_tasks : list task) : D bool :=
  r ← ansible_run (Some ansible_tasks) None None None;
  mret r.1.

(** ** [install_module] *)

Definition install_module (module : string) : D bool :=
  all ← get_preloaded;
  match all !! module with
  | None => fail (KeyError module)
  | Some p =>
      let success := true in
      ok_apt ←
        match deps_apt (deps p) with
        | [] => mret true
        | packages => apt_install packages
        end;
      let success := success && ok_apt in
      ok_pip ←
        match deps_pip (deps p) with
        | [] => mret true
        | packages => pip_install packages
        end;
      let success := success && ok_pip in
      ok_shell ←
        match deps_shell (deps p) with
        | [] => mret true
        | commands => shell module commands
        end;
      let success := success && ok_shell in
      ok_tasks ←
        match deps_ansible (deps p) with
        | [] => mret true
        | ansible_tasks => tasks module ansible_tasks
        end;
      mret (success && ok_tasks)
  end.

(** ** Root privileges *)

Definition verify_sudo_password (sudo_pass : string) : D bool :=
  _ ← note (Prompted sudo_pass (sudo_accepts sudo_pass));
  mret (sudo_accepts sudo_pass).

Definition password_truth (p : option string) : bool :=
  match p with
  | Some (String _ _) => true
  | _ => false
  end.

(** [password = getpass.getpass(...)] took a line from the terminal. *)
Definition took_line (more : list string) : D unit := λ h,
  (Done (), mkHost (preloaded h) (setup_status h) (sudo_password h) more
                   (sigint h) (run_count h) (status_file h) (effects h)).

(** [if self.verify_sudo_password(password): self._sudo_password = password] *)
Definition keep_if (accepted : bool) (password : string) : D unit :=
  if accepted then set_sudo_password password else mret ().

(** The [while] loop of [ensure_root], by the lines the terminal still has:
    [getpass] raises [EOFError] when there is none. *)
Fixpoint ask_password (lines : list string) : D unit := λ h,
  if password_truth (sudo_password h) then (Done (), h)
  else
    match lines with
    | [] => (Fail EOFError, h)
    | password :: more =>
        (_ ← took_line more;
         accepted ← verify_sudo_password password;
         _ ← keep_if accepted password;
         ask_password more) h
    end.

Definition ensure_root : D unit := λ h,
  if negb (Nat.eqb (euid env) 0) && bool_decide (sudo_password h = None)
  then ask_password (typed h) h
  else (Done (), h).

(** ** [install] *)

(** Whether the module is set up now: [success is None or (success is False
    and self.retry_deps) or self.force_deps]. *)
Definition wants_setup (success : option bool) : bool :=
  match success with
  | None => true
  | Some false => retry_deps config || force_deps config
  | Some true => force_deps config
  end.

(** [succeeded.append(m)] or [failed.append(m)]. *)
Definition settle (ok : bool) (m : string) (succeeded failed : list string)
    : list string * list string :=
  if ok then ((succeeded ++ [m])%list, failed)
  else (succeeded, (failed ++ [m])%list).

(** The body of the [for] loop. *)
Definition install_one (m : string) (succeeded failed : list string)
    : D (list string * list string) :=
  if no_deps config then mret (settle true m succeeded failed)
  else
    all ← get_preloaded;
    match all !! m with
    | None => mret (settle false m succeeded failed)
    | Some p =>
        let module_hash := sha1_deps (deps p) in
        status ← get_setup_status;
        let success := status !! module_hash in
        if Nat.leb (dependency_count (deps p)) 0
        then mret (settle true m succeeded failed)
        else if wants_setup success then
          _ ← (if needs_sudo p then ensure_root else mret ());
          success ← install_module m;
          _ ← set_setup_status module_hash success;
          mret (settle (success || ignore_failed_deps config) m
                       succeeded failed)
        else
          mret (settle (default false success || ignore_failed_deps config)
                       m succeeded failed)
    end.

Fixpoint install_loop (modules succeeded failed : list string)
    : D (list string * list string) :=
  match modules with
  | [] => mret (succeeded, failed)
  | m :: more =>
      lists ← install_one m succeeded failed;
      install_loop more lists.1 lists.2
  end.

(** [json.dump(self.setup_status, f)] into [setup_status.json]. *)
Definition write_setup_status : D unit := λ h,
  (Done (), mkHost (preloaded h) (setup_status h) (sudo_password h) (typed h)
                   (sigint h) (run_count h) (Some (setup_status h))
                   (effects h)).

Definition install (modules : list string) : D (list string * list string) :=
  try_finally (install_loop modules [] []) write_setup_status.

End Installer.

(** ** Views of a host *)

(** A run that returned with status ["successful"]; other effects do not
    count against an installation. *)
Definition run_ok (e : effect) : bool :=
  match e with
  | Ran _ (RunReturns status _ _) => String.eqb status "successful"
  | Ran _ (RunRaises _ _) => false
  | _ => true
  end.

Definition is_run (e : effect) : bool :=
  match e with
  | Ran _ _ => true
  | _ => false
  end.

Definition is_prompt (e : effect) : bool :=
  match e with
  | Prompted _ _ => true
  | _ => false
  end.

(** The host once [write_setup_status] has run. *)
Definition written (h : Host) : Host :=
  mkHost (preloaded h) (setup_status h) (sudo_password h) (typed h)
         (sigint h) (run_count h) (Some (setup_status h)) (effects h).

(** How many kinds of dependency [install_module] hands to Ansible. *)
Definition kinds_to_run (env : environment) (d : dependencies) : nat :=
  (if has_apt env && list_truth (deps_apt d) then 1 else 0)
  + (if list_truth (deps_pip d) then 1 else 0)
  + (if list_truth (deps_shell d) then 1 else 0)
  + (if list_truth (deps_ansible d) then 1 else 0).

(** The number of dependencies each known module declares. *)
Definition dependency_counts (h : Host) : gmap string nat :=
  (λ p, dependency_count (deps p)) <$> preloaded h.

(** The command line a task of [shell] runs and the file it is guarded
    by. *)
Definition guarded_by_own_file (t : task) : Prop :=
  match t with
  | ShellTask _ shell_args executable creates =>
      executable = "/bin/bash"
      ∧ ∃ line : string,
          entries_get "cmd" shell_args
          = Some (line ++ " && touch " ++ creates)
  | ModuleTask _ => False
  end.

(** What a step of [install_module] adds to the log: [n] runs, all of them
    successful exactly when [b]. *)
Definition ran (n : nat) (b : bool) (h h' : Host) : Prop :=
  ∃ new : list effect,
    effects h' = (effects h ++ new)%list
    ∧ b = forallb run_ok new
    ∧ length (List.filter is_run new) = n.

(** [d.get(k)] *)
Fixpoint dict_get (k : string) (d : pydict) : option pyval :=
  match d with
  | [] => None
  | (k', v) :: more => if String.eqb k k' then Some v else dict_get k more
  end.

Definition is_failure (e : run_event) : bool :=
  String.eqb (event_name e) "runner_on_failed".

Definition is_line (c : command) : bool :=
  match c with
  | CmdStr _ => true
  | CmdDict _ => false
  end.

End Deps.

(** ** A small host to run the installer on *)

Module Farm.

Import Deps.

Definition hash_deps (d : dependencies) : string :=
  "deps-" ++ str_join "," (deps_apt d ++ deps_pip d)%list
  ++ "-" ++ pretty (length (deps_shell d))
  ++ "-" ++ pretty (length (deps_ansible d)).

Definition hash_command (module : string) (i : nat) (c : command) : string :=
  module ++ "-" ++ pretty i.

Definition hash_playbook (playbook : option (list task)) : string := "0f3c".

(** The [pip] module fails for want of a network and every other run ends
    well; each run leaves handler 7 installed. *)
Definition runner (n : nat) (call : run_call) : run_answer :=
  match rc_module call with
  | Some "pip" =>
      RunReturns "failed"
        [mkRunEvent "runner_on_start" None;
         mkRunEvent "runner_on_failed" (Some "no route to host")] 7
  | _ => RunReturns "successful" [mkRunEvent "runner_on_ok" None] 7
  end.

Definition sudo_accepts (password : string) : bool :=
  String.eqb password "hunter2".

Definition config : settings :=
  mkSettings false false false false false "/root/.bbot/cache/depsinstaller".

Definition desktop : environment :=
  mkEnvironment true None (Some "/usr/bin/python3") "/usr/bin/python3" 1000.

(** A host without [apt]. *)
Definition laptop : environment :=
  mkEnvironment false None (Some "/usr/bin/python3") "/usr/bin/python3" 1000.

Definition nmap : preloaded_module :=
  mkPreloaded (mkDependencies ["nmap"] [] [] []) true.
Definition wappalyzer : preloaded_module :=
  mkPreloaded (mkDependencies [] ["python-Wappalyzer"] [] []) false.
Definition httpx : preloaded_module :=
  mkPreloaded
    (mkDependencies [] []
       [CmdStr "go install httpx@latest";
        CmdDict [("cmd", "make install"); ("chdir", "/opt/httpx")]] [])
    false.
Definition aggregate : preloaded_module :=
  mkPreloaded (mkDependencies [] [] [] []) false.

Definition modules : gmap string preloaded_module :=
  list_to_map [("nmap", nmap); ("wappalyzer", wappalyzer);
               ("httpx", httpx); ("aggregate", aggregate)].

(** A host that has set up nothing yet; [lines] is what the user will
    type. *)
Definition fresh (lines : list string) : Host :=
  mkHost modules ∅ None lines 2 0 None [].

(** A host whose status records [nmap] as done. *)
Definition seasoned : Host :=
  mkHost modules {[hash_deps (deps nmap) := true]} None [] 2 0 None [].

(** Dependencies switched off. *)
Definition offline : settings :=
  mkSettings true false false false false "/root/.bbot/cache/depsinstaller".

Definition install (env : environment) :=
  Deps.install hash_deps hash_command hash_playbook runner sudo_accepts
               config env.

Definition install_offline :=
  Deps.install hash_deps hash_command hash_playbook runner sudo_accepts
               offline desktop.

Definition install_module (env : environment) :=
  Deps.install_module hash_command hash_playbook runner config env.

Definition shell_tasks := Deps.shell_tasks hash_command config.

(** A host on which the sudo password is known already. *)
Definition unlocked : Host :=
  mkHost modules ∅ (Some "hunter2") [] 2 0 None [].

Definition pip_install :=
  Deps.pip_install hash_playbook runner config desktop.

(** What is asked for in one go; ["nope"] is no module. *)
Definition wanted : list string :=
  ["nmap"; "wappalyzer"; "httpx"; "aggregate"; "nope"].

(** The user mistypes the password once. *)
Definition attended : Host := fresh ["wrong"; "hunter2"].

End Farm.

(** * Facts *)

(** ** Strings *)

Lemma string_app_nil (r : string) : "" ++ r = r.
Proof. reflexivity. Qed.

Lemma string_app_cons (c : Ascii.ascii) (p r : string) :
  String c p ++ r = String c (p ++ r).
Proof. reflexivity. Qed.

Lemma prefix_nil (s : string) : String.prefix "" s = true.
Proof. by destruct s. Qed.

Lemma prefix_cons (c d : Ascii.ascii) (p s : string) :
  String.prefix (String c p) (String d s)
  = if Ascii.ascii_dec c d then String.prefix p s else false.
Proof. reflexivity. Qed.

Lemma prefix_spec (p s : string) :
  String.prefix p s = true ↔ ∃ rest, s = p ++ rest.
Proof.
  revert s. induction p as [|c p IH]; intros s.
  - rewrite prefix_nil. split; [intros _; by exists s | done].
  - destruct s as [|d s].
    + split; [done | by intros [rest ?]].
    + rewrite prefix_cons. destruct (Ascii.ascii_dec c d) as [->|Hne].
      * rewrite IH.
        split; intros [rest ?]; exists rest; rewrite string_app_cons in *;
          congruence.
      * split; [done|].
        intros [rest ?]; rewrite string_app_cons in *; congruence.
Qed.

Lemma str_in_nil (needle : string) :
  str_in needle "" = String.prefix needle "".
Proof. unfold str_in. apply orb_false_r. Qed.

Lemma str_in_cons (needle : string) (c : Ascii.ascii) (hay : string) :
  str_in needle (String c hay)
  = String.prefix needle (String c hay) || str_in needle hay.
Proof. reflexivity. Qed.

(** [str_in] finds the needle exactly where the text has it as a
    contiguous piece. *)
Lemma str_in_spec (needle hay : string) :
  str_in needle hay = true ↔ ∃ before after, hay = before ++ needle ++ after.
Proof.
  induction hay as [|c hay IH].
  - rewrite str_in_nil, prefix_spec. split.
    + intros [rest ->]. by exists "", rest.
    + intros [before [after Heq]]. destruct before; [by exists after|done].
  - rewrite str_in_cons, orb_true_iff, prefix_spec, IH. split.
    + intros [[rest Heq]|[before [after Heq]]].
      * by exists "", rest.
      * exists (String c before), after.
        rewrite string_app_cons. by rewrite Heq.
    + intros [before [after Heq]]. destruct before as [|d before].
      * left. by exists after.
      * right. exists before, after.
        rewrite string_app_cons in Heq. congruence.
Qed.

(** ** Names *)

Lemma split_on_not_nil (sep : Ascii.ascii) (s : string) : split_on sep s ≠ [].
Proof.
  destruct s as [|c rest]; [done|]. cbn [split_on].
  destruct (Ascii.eqb c sep); [done|]. by destruct (split_on sep rest).
Qed.

Lemma split_on_sep (sep : Ascii.ascii) (s : string) :
  split_on sep (String sep s) = EmptyString :: split_on sep s.
Proof. cbn [split_on]. by rewrite Ascii.eqb_refl. Qed.

Lemma split_on_other (sep c : Ascii.ascii) (s : string) :
  Ascii.eqb c sep = false →
  split_on sep (String c s)
  = String c (hd EmptyString (split_on sep s)) :: tl (split_on sep s).
Proof.
  intros Hc. cbn [split_on]. rewrite Hc.
  pose proof (split_on_not_nil sep s) as Hne.
  by destruct (split_on sep s).
Qed.

(** The piece before the first separator. *)
Lemma split_on_first (k tail : string) :
  hd EmptyString (split_on apostrophe (k ++ String apostrophe tail))
  = before_apostrophe k.
Proof.
  induction k as [|c k IH].
  - rewrite string_app_nil. by rewrite split_on_sep.
  - rewrite string_app_cons. cbn [before_apostrophe].
    destruct (Ascii.eqb c apostrophe) eqn:Hc.
    + apply Ascii.eqb_eq in Hc as ->. by rewrite split_on_sep.
    + rewrite split_on_other by done. cbn [hd]. by rewrite IH.
Qed.

(** What [split("'")[1]] reads off a node: the name up to its first
    apostrophe, whatever follows the path in the printed node. *)
Lemma header_value_tail (k tail : string) :
  nth 1 (split_on apostrophe ("<root['" ++ k ++ String apostrophe tail))
      EmptyString
  = before_apostrophe k.
Proof.
  change ("<root['" ++ k ++ String apostrophe tail)
    with (String (Ascii.ascii_of_nat 60) (String (Ascii.ascii_of_nat 114)
           (String (Ascii.ascii_of_nat 111) (String (Ascii.ascii_of_nat 111)
           (String (Ascii.ascii_of_nat 116) (String (Ascii.ascii_of_nat 91)
           (String apostrophe (k ++ String apostrophe tail)))))))).
  rewrite !(split_on_other apostrophe) by reflexivity.
  rewrite split_on_sep. cbn [nth tl]. 
  pose proof (split_on_first k tail) as Hfirst.
  pose proof (split_on_not_nil apostrophe (k ++ String apostrophe tail)).
  by destruct (split_on apostrophe (k ++ String apostrophe tail)).
Qed.

Lemma header_value_spec (k : string) : header_value k = before_apostrophe k.
Proof. apply (header_value_tail k "]"). Qed.

Lemma before_apostrophe_id (k : string) :
  before_apostrophe k = k ↔ ¬ str_in (String apostrophe EmptyString) k = true.
Proof.
  induction k as [|c k IH]; [done|].
  cbn [before_apostrophe]. rewrite str_in_cons, prefix_cons, prefix_nil.
  destruct (Ascii.eqb_spec c apostrophe) as [->|Hc].
  - destruct (Ascii.ascii_dec apostrophe apostrophe); [|done].
    cbn [orb]. split; [done | intros Hn; by destruct Hn].
  - destruct (Ascii.ascii_dec apostrophe c) as [Heq|_]; [congruence|].
    cbn [orb]. rewrite <- IH. split; [congruence | by intros ->].
Qed.

(** ** Header collections *)

Lemma lookup_delitem (k name : string) (t : Headers) :
  delitem k t !! name
  = if decide (lower name = lower k) then None else t !! name.
Proof.
  unfold delitem. destruct (decide (lower name = lower k)) as [Heq|Hne].
  - apply map_lookup_filter_None. right. intros v _ Hkeep. by apply Hkeep.
  - destruct (t !! name) as [v|] eqn:Hname.
    + by apply map_lookup_filter_Some.
    + apply map_lookup_filter_None. by left.
Qed.

Lemma delitem_empty (k : string) : delitem k ∅ = ∅.
Proof. apply map_filter_empty. Qed.

Lemma delitem_idemp (k : string) (t : Headers) :
  delitem k (delitem k t) = delitem k t.
Proof.
  apply map_eq. intros name. rewrite !lookup_delitem. by case_decide.
Qed.

Lemma ignores_nil (k : string) : ¬ ignores [] k.
Proof. unfold ignores. apply not_elem_of_nil. Qed.

Lemma ignores_cons (i : string) (ignored : list string) (k : string) :
  ignores (i :: ignored) k ↔ lower k = lower i ∨ ignores ignored k.
Proof. unfold ignores. rewrite fmap_cons. apply elem_of_cons. Qed.

Lemma ignores_app (names more : list string) (k : string) :
  ignores (names ++ more) k ↔ ignores names k ∨ ignores more k.
Proof. unfold ignores. rewrite fmap_app. apply elem_of_app. Qed.

(** A name on the list is ignored in every spelling. *)
Lemma ignores_elem_of (ignored : list string) (name k : string) :
  name ∈ ignored → lower k = lower name → ignores ignored k.
Proof.
  intros Hin Hk. unfold ignores. rewrite Hk. by apply list_elem_of_fmap_2.
Qed.

Lemma lookup_without (ignored : list string) (t : Headers) (k : string) :
  without ignored t !! k = if decide (ignores ignored k) then None else t !! k.
Proof.
  unfold without. revert t. induction ignored as [|i ignored IH]; intros t.
  - rewrite decide_False by apply ignores_nil. done.
  - cbn [foldl]. rewrite IH, lookup_delitem.
    pose proof (ignores_cons i ignored k) as Hcons.
    destruct (decide (ignores ignored k)), (decide (lower k = lower i)),
      (decide (ignores (i :: ignored) k)); try done; exfalso; tauto.
Qed.

Lemma without_idemp (ignored : list string) (t : Headers) :
  without ignored (without ignored t) = without ignored t.
Proof.
  apply map_eq. intros k. rewrite !lookup_without. by case_decide.
Qed.

Lemma headers_at_alter (hp : gmap loc Headers) (k : string) (l l' : loc) :
  headers_at (alter (delitem k) l hp) l'
  = if decide (l = l') then delitem k (headers_at hp l') else headers_at hp l'.
Proof.
  unfold headers_at. case_decide as Hl.
  - subst l'. rewrite lookup_alter_eq.
    destruct (hp !! l); simpl; [done | by rewrite delitem_empty].
  - by rewrite lookup_alter_ne.
Qed.

Lemma headers_at_heap_without (ignored : list string) (l1 l2 l : loc)
    (hp : gmap loc Headers) :
  headers_at (heap_without ignored l1 l2 hp) l
  = if decide (l = l1 ∨ l = l2) then without ignored (headers_at hp l)
    else headers_at hp l.
Proof.
  unfold heap_without, without. revert hp.
  induction ignored as [|k ignored IH]; intros hp; simpl.
  - by case_decide.
  - rewrite IH, !headers_at_alter.
    destruct (decide (l = l1 ∨ l = l2)) as [Hl|Hl],
      (decide (l2 = l)) as [->|H2], (decide (l1 = l)) as [->|H1];
      try done; try (exfalso; intuition congruence).
    by rewrite delitem_idemp.
Qed.

Lemma elem_of_dict_keys (t : Headers) (k : string) :
  k ∈ dict_keys t ↔ is_Some (t !! k).
Proof.
  unfold dict_keys. rewrite list_elem_of_fmap. split.
  - intros [[k' v] [-> Hin]]. apply elem_of_map_to_list in Hin. by exists v.
  - intros [v Hv]. exists (k, v). split; [done | by apply elem_of_map_to_list].
Qed.

(** DeepDiff has a node for a name exactly when the two collections disagree
    on it. *)
Lemma elem_of_differing (t1 t2 : Headers) (k : string) :
  k ∈ differing t1 t2 ↔ t1 !! k ≠ t2 !! k.
Proof.
  unfold differing, dictionary_item_added, values_changed,
    dictionary_item_removed.
  rewrite !elem_of_app, !list_elem_of_filter, !elem_of_dict_keys.
  assert (∀ v : string, is_Some (Some v)) as Hsome by eauto.
  assert (¬ is_Some (@None string)) as Hnone by (by intros [? ?]).
  destruct (t1 !! k) as [v1|], (t2 !! k) as [v2|];
    try (pose proof (Hsome v1)); try (pose proof (Hsome v2));
    split; intros Hk; try tauto; try (intuition congruence).
Qed.

Lemma differing_nil (t1 t2 : Headers) : differing t1 t2 = [] ↔ t1 = t2.
Proof.
  split.
  - intros Hnil. apply map_eq. intros k.
    destruct (decide (t1 !! k = t2 !! k)) as [|Hne]; [done|].
    apply elem_of_differing in Hne. rewrite Hnil in Hne.
    by apply not_elem_of_nil in Hne.
  - intros ->. destruct (differing t2 t2) as [|k ks] eqn:Hd; [done|].
    assert (k ∈ differing t2 t2) as Hin by (rewrite Hd; apply list_elem_of_here).
    by apply elem_of_differing in Hin.
Qed.

(** What [compare_headers] collects: every differing name, cut at its first
    apostrophe. *)
Lemma header_diff_differing (t1 t2 : Headers) :
  header_diff t1 t2 = before_apostrophe <$> differing t1 t2.
Proof.
  unfold header_diff, differing. rewrite !fmap_app.
  f_equal; [|f_equal]; apply list_fmap_ext; intros; apply header_value_spec.
Qed.

Lemma header_diff_nil (t1 t2 : Headers) :
  header_diff t1 t2 = [] ↔ t1 = t2.
Proof.
  rewrite header_diff_differing, <- differing_nil.
  split; [apply fmap_nil_inv | by intros ->].
Qed.

(** ** Truth of a response *)

Lemma ok_false (r : Response) :
  ok r = false ↔ (400 ≤ status_code r < 600)%Z.
Proof.
  unfold ok. rewrite negb_false_iff, andb_true_iff, Z.leb_le, Z.ltb_lt. done.
Qed.

Lemma ok_true (r : Response) :
  ok r = true ↔ ¬ (400 ≤ status_code r < 600)%Z.
Proof.
  rewrite <- ok_false. by destruct (ok r).
Qed.

(** ** Running the comparator *)

Section Runs.

Context {json : Type} `{!EqDecision json}.
Variable parse : string → option json.
Variable dist : @content json → @content json → Q.
Variable rand : nat → nat → string.
Variable truth : Response → bool.

Lemma bind_run {A B : Type} (m : M A) (k : A → M B) (w : @World json) :
  (m ≫= k) w
  = match m w with
    | (Ret a, w') => k a w'
    | (Raise e, w') => (Raise e, w')
    end.
Proof. reflexivity. Qed.

(** One step of symbolic execution: expose the next primitive and run it. *)
Ltac run_step :=
  rewrite bind_run;
  cbn [record read_headers del_header draw_token request sleep raise
       heap pending draws calls].
Ltac run := repeat run_step; unfold mret, M_ret.

Lemma del_ignored_run (ignored : list string) (l1 l2 : loc) (w : @World json) :
  del_ignored ignored l1 l2 w
  = (Ret (), mkWorld (heap_without ignored l1 l2 (heap w)) (pending w)
                     (draws w) (calls w)).
Proof.
  revert w. induction ignored as [|k ignored IH]; intros w.
  - by destruct w.
  - cbn [del_ignored]. run. rewrite IH. reflexivity.
Qed.

Lemma compare_headers_run (ignored : list string) (l1 l2 : loc)
    (w : @World json) :
  compare_headers ignored l1 l2 w
  = (Ret (header_diff (without ignored (headers_at (heap w) l1))
                      (without ignored (headers_at (heap w) l2))),
     mkWorld (heap_without ignored l1 l2 (heap w)) (pending w) (draws w)
             (calls w ++ [CallDiffHeaders l1 l2])).
Proof.
  unfold compare_headers. rewrite bind_run, del_ignored_run. run.
  unfold header_diff. rewrite !headers_at_heap_without.
  rewrite !decide_True by tauto. reflexivity.
Qed.

Lemma compare_body_run (c1 c2 : @content json) (w : @World json) :
  compare_body dist c1 c2 w
  = (Ret (body_distance dist c1 c2),
     mkWorld (heap w) (pending w) (draws w)
             (calls w ++ distance_calls c1 c2)).
Proof.
  unfold compare_body, body_distance, distance_calls.
  destruct (decide (c1 = c2)).
  - rewrite app_nil_r. by destruct w.
  - reflexivity.
Qed.

Lemma parse_subject_run (body : string) (w : @World json) :
  parse_subject parse body w
  = (Ret (structural parse body),
     mkWorld (heap w) (pending w) (draws w) (calls w ++ [CallParse body])).
Proof.
  unfold parse_subject, parse_markup, structural. run.
  by destruct (parse body).
Qed.

Lemma gen_cache_buster_run (w : @World json) :
  gen_cache_buster rand w
  = (Ret (cache_buster rand w),
     mkWorld (heap w) (pending w) (S (draws w))
             (calls w ++ [CallRandString 6])).
Proof. reflexivity. Qed.

(** [compare], one branch per [return] statement. *)
Lemma compare_run (self : @HttpCompare json) (subject : string)
    (add_headers add_cookies : option dict) (w : @World json) :
  compare parse dist rand truth self subject add_headers add_cookies w
  = let sent :=
      after_request w
        (CallRequest (subject ++ cache_buster rand w) add_headers None false) in
    match next_answer w with
    | None => (Ret (true, Some "403", false), sent [] (heap w))
    | Some response =>
        if truth response then
          let reflection := reflected add_headers add_cookies (text response) in
          let subject_json := structural parse (text response) in
          if (status_code (baseline self) =? status_code response)%Z then
            let ignored := baseline_ignore_headers self in
            let l1 := headers (baseline self) in
            let l2 := headers response in
            let different_headers :=
              header_diff (without ignored (headers_at (heap w) l1))
                          (without ignored (headers_at (heap w) l2)) in
            let hp := heap_without ignored l1 l2 (heap w) in
            if list_truth different_headers then
              (Ret (false, Some "header", reflection),
               sent [CallParse (text response); CallDiffHeaders l1 l2] hp)
            else
              (Ret (if Qeq_bool (baseline_body_distance self)
                         (body_distance dist (baseline_json self) subject_json)
                    then (true, None, false)
                    else (false, Some "body", reflection)),
               sent (CallParse (text response) :: CallDiffHeaders l1 l2
                     :: distance_calls (baseline_json self) subject_json) hp)
          else
            (Ret (false, Some "code", reflection),
             sent [CallParse (text response)] (heap w))
        else (Ret (true, Some "403", false), sent [] (heap w))
    end.
Proof.
  unfold compare, after_request, next_answer.
  rewrite bind_run, gen_cache_buster_run. run.
  destruct (default None (head (pending w))) as [response|];
    [|by rewrite <- app_assoc].
  destruct (truth response); cbn [negb]; [|by rewrite <- app_assoc].
  rewrite bind_run, parse_subject_run. cbn [heap pending draws calls].
  destruct (status_code (baseline self) =? status_code response)%Z;
    cbn [negb]; [|by rewrite <- !app_assoc].
  rewrite bind_run, compare_headers_run. cbn [heap pending draws calls].
  destruct (list_truth _); [by rewrite <- !app_assoc|].
  rewrite bind_run, compare_body_run. cbn [heap pending draws calls].
  rewrite <- !app_assoc. cbn [app].
  by destruct (Qeq_bool _ _).
Qed.

Lemma parse_baselines_run (text_1 text_2 : string) (w : @World json) :
  parse_baselines parse text_1 text_2 w
  = (Ret (calibration_forms parse text_1 text_2),
     mkWorld (heap w) (pending w) (draws w)
             (calls w ++ calibration_parse_calls parse text_1 text_2)).
Proof.
  unfold parse_baselines, parse_markup, calibration_forms,
    calibration_parse_calls.
  run. destruct (parse text_1); [|done].
  run. rewrite <- app_assoc. by destruct (parse text_2).
Qed.

(** [__init__], one branch per way out. *)
Lemma HttpCompare_init_run (url : string) (w : @World json) :
  HttpCompare_init parse dist rand url w
  = match next_answer w, second_answer w with
    | Some b1, Some b2 =>
        if (status_code b1 =? status_code b2)%Z then
          let jsons := calibration_forms parse (text b1) (text b2) in
          let dynamic_headers :=
            header_diff
              (without seeded_ignore_headers (headers_at (heap w) (headers b1)))
              (without seeded_ignore_headers (headers_at (heap w) (headers b2))) in
          (Ret (mkHttpCompare url b1 jsons.1
                  (seeded_ignore_headers ++ dynamic_headers)
                  (body_distance dist jsons.1 jsons.2)),
           after_calibration rand url w
             (calibration_parse_calls parse (text b1) (text b2)
              ++ CallDiffHeaders (headers b1) (headers b2)
              :: distance_calls jsons.1 jsons.2)
             (heap_without seeded_ignore_headers (headers b1) (headers b2)
                           (heap w)))
        else
          (Raise (HttpCompareError "Can't get baseline from source URL"),
           after_calibration rand url w [] (heap w))
    | _, _ => (Raise AttributeError, after_calibration rand url w [] (heap w))
    end.
Proof.
  unfold HttpCompare_init, after_calibration, calibration_calls, next_answer,
    second_answer, sleep.
  rewrite bind_run, gen_cache_buster_run. run_step. run_step.
  rewrite bind_run, gen_cache_buster_run. run_step.
  rewrite <- !app_assoc. unfold cache_buster. cbn [app draws].
  destruct (default None (head (pending w))) as [b1|]; [|done].
  destruct (default None (head (tail (pending w)))) as [b2|]; [|done].
  destruct (status_code b1 =? status_code b2)%Z; cbn [negb]; [|done].
  rewrite bind_run, parse_baselines_run. cbn [heap pending draws calls].
  rewrite bind_run, compare_headers_run. cbn [heap pending draws calls].
  rewrite bind_run, compare_body_run. cbn [heap pending draws calls].
  unfold mret, M_ret. rewrite <- !app_assoc. reflexivity.
Qed.

End Runs.

(** ** Classification *)

Section Classification.

Context {json : Type} `{!EqDecision json}.
Variable parse : string → option json.
Variable dist : @content json → @content json → Q.
Variable rand : nat → nat → string.
Variable truth : Response → bool.

Lemma list_truth_false {A : Type} (l : list A) : list_truth l = false ↔ l = [].
Proof. by destruct l. Qed.

Lemma Qeq_bool_false (x y : Q) : Qeq_bool x y = false ↔ ¬ (x == y)%Q.
Proof.
  rewrite <- Qeq_bool_iff.
  destruct (Qeq_bool x y); split; try done; intros Hn; by destruct Hn.
Qed.

(** C1, as the code has it.  A response with a status code in 400..599 is
    false as an object and is answered like no response: a match with the
    reason "403", before any check, whatever the baseline's status code.  On
    a response with any other status code [compare] checks the status code,
    then the headers, then the body distance, and stops at the first
    mismatch: the reason is "code" exactly when the status codes differ,
    whatever the headers and the body are; it is "header" exactly when the
    status codes are equal and the header comparison names a header; it is
    "body" exactly when status codes and headers match and the distance is
    off the noise floor.  After a status-code mismatch neither DeepDiff call
    was made and no header object was touched; after a header mismatch the
    distance was not computed. *)
Theorem compare_reason_precedence (self : @HttpCompare json) (subject : string)
    (add_headers add_cookies : option dict) (w : @World json)
    (response : Response) :
  next_answer w = Some response →
  ((400 ≤ status_code response < 600)%Z →
   compare parse dist rand ok self subject add_headers add_cookies w
   = (Ret (true, Some "403", false),
      after_request w
        (CallRequest (subject ++ cache_buster rand w) add_headers None false)
        [] (heap w)))
  ∧ (¬ (400 ≤ status_code response < 600)%Z →
     ∃ (matched : bool) (reason : option string) (reflection : bool)
       (w' : @World json),
       compare parse dist rand ok self subject add_headers add_cookies w
       = (Ret (matched, reason, reflection), w')
       ∧ (reason = Some "code"
          ↔ status_code (baseline self) ≠ status_code response)
       ∧ (reason = Some "header"
          ↔ status_code (baseline self) = status_code response
            ∧ different_headers self w response ≠ [])
       ∧ (reason = Some "body"
          ↔ status_code (baseline self) = status_code response
            ∧ different_headers self w response = []
            ∧ ¬ (baseline_body_distance self
                 == subject_distance parse dist self response)%Q)
       ∧ (reason = Some "code" →
          w' = after_request w
                 (CallRequest (subject ++ cache_buster rand w) add_headers None
                              false)
                 [CallParse (text response)] (heap w))
       ∧ (reason = Some "header" →
          calls w'
          = (calls w
             ++ [CallRandString 6;
                 CallRequest (subject ++ cache_buster rand w) add_headers None
                             false;
                 CallParse (text response);
                 CallDiffHeaders (headers (baseline self))
                                 (headers response)])%list)).
Proof.
  intros Hanswer. rewrite compare_run, Hanswer. split.
  { intros Hfalse. apply ok_false in Hfalse. by rewrite Hfalse. }
  intros Husable. apply ok_true in Husable. rewrite Husable.
  cbv zeta. fold (different_headers self w response).
  fold (subject_distance parse dist self response).
  destruct (Z.eqb_spec (status_code (baseline self)) (status_code response))
    as [Hcode|Hcode].
  - destruct (list_truth (different_headers self w response)) eqn:Hdiff.
    + assert (different_headers self w response ≠ []) as Hne
        by (intros Hnil; by rewrite Hnil in Hdiff).
      eexists _, _, _, _. split; [reflexivity|].
      repeat split; try done; intros; destruct_and?; done.
    + apply list_truth_false in Hdiff.
      destruct (Qeq_bool (baseline_body_distance self)
                  (subject_distance parse dist self response)) eqn:Hd.
      * apply Qeq_bool_iff in Hd.
        eexists _, _, _, _. split; [reflexivity|].
        repeat split; try done; intros; destruct_and?; done.
      * apply Qeq_bool_false in Hd.
        eexists _, _, _, _. split; [reflexivity|].
        repeat split; try done; intros; destruct_and?; done.
  - eexists _, _, _, _. split; [reflexivity|].
    repeat split; try done; intros; destruct_and?; done.
Qed.

(** C2, as the code has it.  On a response whose status code is outside
    400..599, with equal status codes and no differing header, the verdict
    is decided by whether the subject's distance equals the noise floor:
    equal, zero or not, is a match with no reason and no reflection;
    different is a "body" mismatch carrying the reflection flag. *)
Theorem compare_body_decides (self : @HttpCompare json) (subject : string)
    (add_headers add_cookies : option dict) (w : @World json)
    (response : Response) :
  next_answer w = Some response →
  ¬ (400 ≤ status_code response < 600)%Z →
  status_code (baseline self) = status_code response →
  different_headers self w response = [] →
  ((baseline_body_distance self
    == subject_distance parse dist self response)%Q →
   (compare parse dist rand ok self subject add_headers add_cookies w).1
   = Ret (true, None, false))
  ∧ (¬ (baseline_body_distance self
        == subject_distance parse dist self response)%Q →
     (compare parse dist rand ok self subject add_headers add_cookies w).1
     = Ret (false, Some "body",
            reflected add_headers add_cookies (text response))).
Proof.
  intros Hanswer Husable Hcode Hheaders. apply ok_true in Husable.
  rewrite compare_run, Hanswer, Husable. cbv zeta.
  fold (different_headers self w response).
  fold (subject_distance parse dist self response).
  rewrite Hcode, Z.eqb_refl, Hheaders. cbn [list_truth fst].
  split; intros Hd.
  - apply Qeq_bool_iff in Hd. by rewrite Hd.
  - apply Qeq_bool_false in Hd. by rewrite Hd.
Qed.

(** C3. When the two calibration answers carry different status codes the
    constructor raises [HttpCompareError]: there is no instance, the header
    objects are as they were, and nothing was called beyond the two requests
    and the pause. *)
Theorem calibration_unstable_status_raises (url : string) (w : @World json)
    (b1 b2 : Response) :
  next_answer w = Some b1 →
  second_answer w = Some b2 →
  status_code b1 ≠ status_code b2 →
  HttpCompare_init parse dist rand url w
  = (Raise (HttpCompareError "Can't get baseline from source URL"),
     after_calibration rand url w [] (heap w))
  ∧ ∀ (self : @HttpCompare json) (w' : @World json),
      HttpCompare_init parse dist rand url w ≠ (Ret self, w').
Proof.
  intros H1 H2 Hcode. rewrite HttpCompare_init_run, H1, H2.
  destruct (Z.eqb_spec (status_code b1) (status_code b2)); [done|].
  split; [reflexivity | discriminate].
Qed.

(** C4. When the transport has no usable answer, [compare] returns
    [(True, "403", False)] and raises nothing; the only calls made are the
    token and the request, so the body was not parsed, no header object was
    touched and no distance was computed. *)
Theorem compare_unusable_is_match (self : @HttpCompare json) (subject : string)
    (add_headers add_cookies : option dict) (w : @World json) :
  usable truth (next_answer w) = false →
  compare parse dist rand truth self subject add_headers add_cookies w
  = (Ret (true, Some "403", false),
     after_request w
       (CallRequest (subject ++ cache_buster rand w) add_headers None false)
       [] (heap w)).
Proof.
  intros Hunusable. rewrite compare_run. cbv zeta.
  destruct (next_answer w) as [response|]; [|done].
  cbn [usable] in Hunusable. by rewrite Hunusable.
Qed.

End Classification.

(** ** Reflection, the request, the reasons *)

Section Subject.

Context {json : Type} `{!EqDecision json}.
Variable parse : string → option json.
Variable dist : @content json → @content json → Q.
Variable rand : nat → nat → string.
Variable truth : Response → bool.

Lemma reflected_true (add_headers add_cookies : option dict) (body : string) :
  reflected add_headers add_cookies body = true →
  (dict_len add_headers = 1 ∧ str_in (first_value add_headers) body = true)
  ∨ (dict_len add_headers = 0 ∧ dict_len add_cookies = 1
     ∧ str_in (first_value add_cookies) body = true).
Proof.
  unfold reflected.
  destruct add_headers as [[|[k v] hs]|]; cbn [dict_truth dict_len length].
  - destruct (dict_truth add_cookies); [|done].
    intros [Hlen Hin]%andb_true_iff. apply Nat.eqb_eq in Hlen. by right.
  - intros [Hlen Hin]%andb_true_iff. apply Nat.eqb_eq in Hlen. by left.
  - destruct (dict_truth add_cookies); [|done].
    intros [Hlen Hin]%andb_true_iff. apply Nat.eqb_eq in Hlen. by right.
Qed.

(** The reflection flag of a verdict is the reflection test or [false]. *)
Lemma compare_reflection (self : @HttpCompare json) (subject : string)
    (add_headers add_cookies : option dict) (w w' : @World json)
    (matched : bool) (reason : option string) :
  compare parse dist rand truth self subject add_headers add_cookies w
  = (Ret (matched, reason, true), w') →
  ∃ response, next_answer w = Some response
    ∧ reflected add_headers add_cookies (text response) = true.
Proof.
  rewrite compare_run. cbv zeta.
  destruct (next_answer w) as [response|]; [|done].
  intros Hrun. exists response. split; [done|].
  destruct (truth response); [|done].
  destruct (status_code (baseline self) =? status_code response)%Z;
    [|congruence].
  destruct (list_truth _); [congruence|].
  destruct (Qeq_bool _ _); congruence.
Qed.

(** C5, as the code has it.  A verdict carries [reflection = True] only when
    exactly one extra header, or exactly one extra cookie, was given and its
    value occurs in the body of the response.  More than one extra header
    gives [False].  More than one extra cookie gives [False] unless exactly
    one extra header was given: headers are looked at first, cookies only
    when no header was given. *)
Theorem reflection_needs_single_value (self : @HttpCompare json)
    (subject : string) (add_headers add_cookies : option dict)
    (w w' : @World json) (matched : bool) (reason : option string)
    (reflection : bool) :
  compare parse dist rand truth self subject add_headers add_cookies w
  = (Ret (matched, reason, reflection), w') →
  (reflection = true →
   ∃ response, next_answer w = Some response
     ∧ ((dict_len add_headers = 1
         ∧ str_in (first_value add_headers) (text response) = true)
        ∨ (dict_len add_cookies = 1
           ∧ str_in (first_value add_cookies) (text response) = true)))
  ∧ (1 < dict_len add_headers → reflection = false)
  ∧ (1 < dict_len add_cookies → dict_len add_headers ≠ 1 →
     reflection = false).
Proof.
  intros Hrun. destruct reflection.
  - apply compare_reflection in Hrun as (response & Hanswer & Hrefl).
    apply reflected_true in Hrefl.
    split; [|split].
    + intros _. exists response. split; [done|]. tauto.
    + intros Hlen. exfalso. lia.
    + intros Hlen Hone. exfalso. lia.
  - by repeat split.
Qed.

Lemma Forall_not_request_distance (c1 c2 : @content json) :
  Forall (λ c, is_request c = false) (distance_calls c1 c2).
Proof.
  unfold distance_calls. destruct (decide (c1 = c2)); repeat constructor.
Qed.

(** C6, what the code sends.  The one request of a [compare] call goes to
    the subject URL with the cache buster appended, carries [add_headers] and
    has redirects disabled, but its cookies are always absent:
    [add_cookies] is not handed to the transport. *)
Theorem compare_request_has_no_cookies (self : @HttpCompare json)
    (subject : string) (add_headers add_cookies : option dict)
    (w : @World json) :
  ∃ (more : list (@call json)) (hp : gmap loc Headers),
    (compare parse dist rand truth self subject add_headers add_cookies w).2
    = after_request w
        (CallRequest (subject ++ cache_buster rand w) add_headers None false)
        more hp
    ∧ Forall (λ c, is_request c = false) more.
Proof.
  rewrite compare_run. cbv zeta.
  destruct (next_answer w) as [response|];
    [|eexists _, _; split; [reflexivity | constructor]].
  destruct (truth response);
    [|eexists _, _; split; [reflexivity | constructor]].
  destruct (status_code (baseline self) =? status_code response)%Z;
    [|eexists _, _; split; [reflexivity | repeat constructor]].
  destruct (list_truth _);
    eexists _, _; (split; [reflexivity|]); repeat constructor.
  apply Forall_not_request_distance.
Qed.

(** C9, as the code has it.  [compare] always returns.  When the transport
    delivered a response whose status code is outside 400..599, the reason
    is one of none, "code", "header", "body".  When it delivered no
    response, or one with a status code in 400..599, which is false as an
    object, the reason is "403". *)
Theorem compare_reason_listed_or_403 (self : @HttpCompare json)
    (subject : string) (add_headers add_cookies : option dict)
    (w : @World json) :
  ∃ (matched : bool) (reason : option string) (reflection : bool),
    (compare parse dist rand ok self subject add_headers add_cookies w).1
    = Ret (matched, reason, reflection)
    ∧ match next_answer w with
      | Some response =>
          if decide (400 ≤ status_code response < 600)%Z
          then reason = Some "403"
          else reason ∈ listed_reasons
      | None => reason = Some "403"
      end.
Proof.
  rewrite compare_run. cbv zeta. unfold listed_reasons.
  destruct (next_answer w) as [response|]; [|by eexists _, _, _].
  destruct (decide (400 ≤ status_code response < 600)%Z) as [Hfalse|Htrue].
  { apply ok_false in Hfalse. rewrite Hfalse. by eexists _, _, _. }
  apply ok_true in Htrue. rewrite Htrue.
  destruct (status_code (baseline self) =? status_code response)%Z.
  - destruct (list_truth _).
    + eexists _, _, _. split; [reflexivity|]. set_solver.
    + destruct (Qeq_bool _ _);
        eexists _, _, _; (split; [reflexivity|]); set_solver.
  - eexists _, _, _. split; [reflexivity|]. set_solver.
Qed.

End Subject.

(** ** Calibration *)

Section Calibration.

Context {json : Type} `{!EqDecision json}.
Variable parse : string → option json.
Variable dist : @content json → @content json → Q.
Variable rand : nat → nat → string.

Lemma calibration_forms_same (body : string) :
  (calibration_forms parse body body).1 = (calibration_forms parse body body).2.
Proof. unfold calibration_forms. by destruct (parse body). Qed.

Lemma calibration_forms_fallback (text_1 text_2 : string) :
  parse text_1 = None ∨ parse text_2 = None →
  calibration_forms parse text_1 text_2
  = (Lines (split_lines text_1), Lines (split_lines text_2)).
Proof.
  unfold calibration_forms.
  intros [-> | ->]; [done | by destruct (parse text_1)].
Qed.

(** C10. The two calibration bodies share one handler: as soon as either
    fails to parse, both are kept as their lines.  The instance stores the
    lines of the first body and the noise floor is the distance between the
    two line sequences, also when the other body parses on its own. *)
Theorem calibration_fallback_is_shared (url : string) (w : @World json)
    (b1 b2 : Response) :
  next_answer w = Some b1 →
  second_answer w = Some b2 →
  status_code b1 = status_code b2 →
  parse (text b1) = None ∨ parse (text b2) = None →
  (∀ w0 : @World json,
     (parse_baselines parse (text b1) (text b2) w0).1
     = Ret (Lines (split_lines (text b1)), Lines (split_lines (text b2))))
  ∧ ∃ (self : @HttpCompare json) (w' : @World json),
      HttpCompare_init parse dist rand url w = (Ret self, w')
      ∧ baseline_json self = Lines (split_lines (text b1))
      ∧ baseline_body_distance self
        = body_distance dist (Lines (split_lines (text b1)))
                        (Lines (split_lines (text b2))).
Proof.
  intros H1 H2 Hcode Hfail. split.
  - intros w0. rewrite parse_baselines_run. cbn [fst].
    by rewrite calibration_forms_fallback.
  - rewrite HttpCompare_init_run, H1, H2, Hcode, Z.eqb_refl. cbv zeta.
    rewrite calibration_forms_fallback by done.
    eexists _, _. split; [reflexivity|]. by split.
Qed.

End Calibration.

(** ** The frame of [compare] *)

Section Frame.

Context {json : Type} `{!EqDecision json}.
Variable parse : string → option json.
Variable dist : @content json → @content json → Q.
Variable rand : nat → nat → string.
Variable truth : Response → bool.

(** C8, as the code has it.  [compare_headers] deletes the ignored names from
    the two header objects themselves.  A [compare] call leaves the status
    code, the structural body, the ignore list and the noise floor as they
    were; the reference header collection is as it was when the call stops
    before the header comparison, and has lost the names of the ignore list
    when the call gets that far. *)
Theorem compare_frame (self : @HttpCompare json) (subject : string)
    (add_headers add_cookies : option dict) (w : @World json) :
  reference_values self
    (heap (compare parse dist rand truth self subject add_headers
                   add_cookies w).2)
  = (status_code (baseline self),
     (if reaches_headers truth self w
      then without (baseline_ignore_headers self)
                   (headers_at (heap w) (headers (baseline self)))
      else headers_at (heap w) (headers (baseline self))),
     baseline_json self, baseline_ignore_headers self,
     baseline_body_distance self).
Proof.
  unfold reference_values, reaches_headers. rewrite compare_run. cbv zeta.
  destruct (next_answer w) as [response|]; [|done].
  destruct (truth response); [|done]. cbn [andb].
  destruct (status_code (baseline self) =? status_code response)%Z; [|done].
  destruct (list_truth _); cbn [snd after_request heap];
    rewrite headers_at_heap_without, decide_True by tauto; reflexivity.
Qed.

End Frame.

(** ** The comparator on the site *)

Import Site.

(** Calibration on the site: the answers at 1 and 2 give [calibrated]. *)
Example site_calibration (answers : list (option Response)) :
  init (world_of (answer 200 1 page :: answer 200 2 page :: answers))
  = (Ret calibrated, calibrated_world answers).
Proof. reflexivity. Qed.

(** Two calibration answers that differ on [Date] alone: the seeded names
    and a noise floor of [0.0]. *)
Example site_calibration_date_only :
  (init world_date_only).1
  = Ret (mkHttpCompare url (mkResponse 200 1 page) (Tree page)
           seeded_ignore_headers 0).
Proof. reflexivity. Qed.

(** The baseline page with every header name in lower case: [date] and
    [etag] are deleted whatever their case, [server] is held against
    [Server]. *)
Example compare_respelled_header_on_site :
  (run_compare calibrated subject None None
     (calibrated_world [answer 200 8 page])).1
  = Ret (false, Some "header", false).
Proof. reflexivity. Qed.

(** A redirect answered to a probe with one reflected header. *)
Lemma compare_reason_precedence_witness :
  next_answer world_redirect = Some redirect
  ∧ ¬ (400 ≤ status_code redirect < 600)%Z
  ∧ ∃ (matched reflection : bool) (w' : @World string),
      run_compare calibrated subject one_header None world_redirect
      = (Ret (matched, Some "code", reflection), w').
Proof.
  split; [reflexivity|].
  assert (¬ (400 ≤ status_code redirect < 600)%Z) as Hstatus
    by (cbn [status_code redirect]; lia).
  split; [exact Hstatus|].
  destruct (proj2 (compare_reason_precedence parse distance token calibrated
                     subject one_header None world_redirect redirect eq_refl)
              Hstatus)
    as (matched & reason & reflection & w' & Hrun & Hcode & _).
  exists matched, reflection, w'. rewrite <- (proj2 Hcode); [exact Hrun|].
  discriminate.
Defined.

(** C1, the claim as written fails: the site answers a probe with 404, the
    baseline has 200, and the verdict is a match with the reason "403", not
    a "code" mismatch. *)
Lemma not_found_is_no_code_mismatch :
  (init (world_of [answer 200 1 page; answer 200 2 page; Some not_found])).1
  = Ret calibrated
  ∧ next_answer world_not_found = Some not_found
  ∧ status_code (baseline calibrated) ≠ status_code not_found
  ∧ (run_compare calibrated subject one_header None world_not_found).1
    = Ret (true, Some "403", false).
Proof.
  split; [reflexivity|]. split; [reflexivity|].
  split; [discriminate | reflexivity].
Qed.

(** A subject as far from the baseline as the two calibration samples
    were. *)
Lemma compare_body_decides_witness :
  next_answer world_changed = Some changed_page
  ∧ ¬ (400 ≤ status_code changed_page < 600)%Z
  ∧ status_code (baseline noisy) = status_code changed_page
  ∧ different_headers noisy world_changed changed_page = []
  ∧ baseline_body_distance noisy = 12 # 100
  ∧ subject_distance parse distance noisy changed_page = 12 # 100
  ∧ (run_compare noisy subject one_header None world_changed).1
    = Ret (true, None, false).
Proof.
  split; [reflexivity|].
  assert (¬ (400 ≤ status_code changed_page < 600)%Z) as Hstatus
    by (cbn [status_code changed_page]; lia).
  split; [exact Hstatus|].
  repeat (split; [reflexivity|]).
  apply (compare_body_decides parse distance token noisy subject
           one_header None world_changed changed_page
           eq_refl Hstatus eq_refl eq_refl).
  reflexivity.
Defined.

(** C2, the claim as written fails: the site answers 404 throughout.
    Calibration succeeds on two such answers; a third has the baseline's
    status code, no differing header and another body, at a distance off the
    noise floor, and the verdict is a match with the reason "403", not a
    "body" mismatch. *)
Lemma missing_page_is_no_body_mismatch :
  (init world_missing).1 = Ret calibrated_missing
  ∧ next_answer (init world_missing).2 = Some missing_changed
  ∧ status_code (baseline calibrated_missing) = status_code missing_changed
  ∧ different_headers calibrated_missing (init world_missing).2
      missing_changed = []
  ∧ ¬ (baseline_body_distance calibrated_missing
       == subject_distance parse distance calibrated_missing
            missing_changed)%Q
  ∧ (run_compare calibrated_missing subject None None
       (init world_missing).2).1
    = Ret (true, Some "403", false).
Proof.
  repeat (split; [reflexivity|]). split; [discriminate | reflexivity].
Qed.

(** Calibration answered with 200, then 500. *)
Lemma calibration_unstable_status_raises_witness :
  next_answer world_unstable = Some (mkResponse 200 1 page)
  ∧ second_answer world_unstable = Some (mkResponse 500 2 page)
  ∧ (200 ≠ 500)%Z
  ∧ (init world_unstable).1
    = Raise (HttpCompareError "Can't get baseline from source URL")
  ∧ heap (init world_unstable).2 = objects.
Proof.
  split; [reflexivity|]. split; [reflexivity|].
  assert (200 ≠ 500)%Z as Hcode by discriminate. split; [exact Hcode|].
  destruct (calibration_unstable_status_raises parse distance token url
              world_unstable (mkResponse 200 1 page) (mkResponse 500 2 page)
              eq_refl eq_refl Hcode) as [Hrun _].
  unfold init. rewrite Hrun. split; reflexivity.
Defined.

(** A probe the transport got no answer to. *)
Lemma compare_unusable_is_match_witness :
  usable ok (next_answer world_silent) = false
  ∧ (run_compare calibrated subject one_header None world_silent).1
    = Ret (true, Some "403", false)
  ∧ heap (run_compare calibrated subject one_header None world_silent).2
    = heap world_silent.
Proof.
  split; [reflexivity|].
  unfold run_compare.
  rewrite (compare_unusable_is_match parse distance token ok calibrated
             subject one_header None world_silent eq_refl).
  split; reflexivity.
Defined.

(** One header, reflected, on a redirect. *)
Lemma reflection_needs_single_value_witness :
  run_compare calibrated subject one_header None world_redirect
  = (Ret (false, Some "code", true),
     (run_compare calibrated subject one_header None world_redirect).2)
  ∧ ∃ response, next_answer world_redirect = Some response
      ∧ ((dict_len one_header = 1
          ∧ str_in (first_value one_header) (text response) = true)
         ∨ (dict_len (@None dict) = 1
            ∧ str_in (first_value None) (text response) = true)).
Proof.
  assert (run_compare calibrated subject one_header None world_redirect
          = (Ret (false, Some "code", true),
             (run_compare calibrated subject one_header None
                          world_redirect).2)) as Hrun
    by reflexivity.
  split; [exact Hrun|].
  exact (proj1 (reflection_needs_single_value parse distance token ok
                  calibrated subject one_header None world_redirect _ false
                  (Some "code") true Hrun) eq_refl).
Defined.

(** C5, the claim as written fails: two cookies were given, the value is in
    the body, and the flag is [True], because a single header was given as
    well. *)
Lemma reflection_with_two_cookies :
  1 < dict_len two_cookies
  ∧ str_in (first_value two_cookies) (text redirect) = true
  ∧ (run_compare calibrated subject one_header two_cookies world_redirect).1
    = Ret (false, Some "code", true).
Proof. split; [cbn; lia|]. split; reflexivity. Qed.

(** C6 on the site: a header and a cookie are given, the request carries
    the header only. *)
Example compare_drops_cookies_on_site :
  calls (run_compare calibrated subject one_header one_cookie world_same).2
  = (calls (calibrated_world [])
     ++ [CallRandString 6;
         CallRequest "http://site.test/admin?k3Xw9a=1" one_header None false;
         CallParse page;
         CallDiffHeaders 1 3])%list.
Proof. reflexivity. Qed.

(** C9, the claim as written fails: with no answer from the transport the
    reason is "403". *)
Lemma unreachable_reason_is_403 :
  (run_compare calibrated subject None None world_silent).1
  = Ret (true, Some "403", false)
  ∧ Some "403" ∉ listed_reasons.
Proof.
  split; [reflexivity|]. unfold listed_reasons.
  rewrite !not_elem_of_cons. repeat split; try discriminate.
  apply not_elem_of_nil.
Qed.

(** C7 on the site: the two calibration answers differ on [Date] and on
    [X-Owner's-Trace].  The name put on the ignore list is [X-Owner], which
    neither answer has; [X-Owner's-Trace] itself is not ignored, and the next
    answer of the same server, which differs from the baseline on it again,
    is a "header" mismatch. *)
Theorem calibration_cuts_name_at_apostrophe :
  (init world_owner).1 = Ret calibrated_owner
  ∧ headers_at (heap world_owner) 5 !! "X-Owner's-Trace" = Some "a81"
  ∧ headers_at (heap world_owner) 6 !! "X-Owner's-Trace" = Some "b44"
  ∧ baseline_ignore_headers calibrated_owner
    = (seeded_ignore_headers ++ ["X-Owner"])%list
  ∧ ¬ ignores (baseline_ignore_headers calibrated_owner) "X-Owner's-Trace"
  ∧ headers_at (heap world_owner) 5 !! "X-Owner" = None
  ∧ headers_at (heap world_owner) 6 !! "X-Owner" = None
  ∧ (run_compare calibrated_owner subject None None (init world_owner).2).1
    = Ret (false, Some "header", false).
Proof.
  repeat (split; [reflexivity|]). split; [|split; [|split]]; try reflexivity.
  intros (name & Hlow & Hname)%list_elem_of_fmap.
  cbn [baseline_ignore_headers calibrated_owner] in Hname.
  rewrite !elem_of_cons, elem_of_nil in Hname.
  destruct Hname as [->|[->|[->|[->|[]]]]]; vm_compute in Hlow; discriminate.
Qed.

(** The first calibration body is markup, the second is not. *)
Lemma calibration_fallback_is_shared_witness :
  next_answer world_half_markup = Some (mkResponse 200 1 page)
  ∧ second_answer world_half_markup = Some (mkResponse 200 2 plain_text)
  ∧ parse page = Some page
  ∧ parse plain_text = None
  ∧ ∃ (self : @HttpCompare string) (w' : @World string),
      init world_half_markup = (Ret self, w')
      ∧ baseline_json self = Lines [page]
      ∧ baseline_body_distance self
        = body_distance distance (Lines [page]) (Lines [plain_text]).
Proof.
  repeat (split; [reflexivity|]).
  exact (proj2 (calibration_fallback_is_shared parse distance token url
                  world_half_markup (mkResponse 200 1 page)
                  (mkResponse 200 2 plain_text)
                  eq_refl eq_refl eq_refl (or_intror eq_refl))).
Defined.

(** C8, the claim as written fails: calibration found [ETag] to vary, and
    the first comparison that reaches the headers deletes it from the
    reference header collection. *)
Lemma compare_rewrites_reference_headers :
  init (world_of [answer 200 1 page; answer 200 2 page; Some same_page])
  = (Ret calibrated, world_same)
  ∧ headers_at (heap world_same) (headers (baseline calibrated)) !! "ETag"
    = Some "v1"
  ∧ headers_at
      (heap (run_compare calibrated subject None None world_same).2)
      (headers (baseline calibrated)) !! "ETag"
    = None
  ∧ reference_values calibrated
      (heap (run_compare calibrated subject None None world_same).2)
    ≠ reference_values calibrated (heap world_same).
Proof.
  repeat (split; [reflexivity|]).
  intros Heq.
  apply (f_equal (λ v : Z * Headers * @content string * list string * Q,
                    v.1.1.1.2 !! "ETag")) in Heq.
  vm_compute in Heq. discriminate.
Qed.

(** * More about the comparator *)

(** ** [compare_headers] on its own *)

Lemma NoDup_dict_keys (t : Headers) : NoDup (dict_keys t).
Proof. apply NoDup_fst_map_to_list. Qed.

Lemma NoDup_differing (t1 t2 : Headers) : NoDup (differing t1 t2).
Proof.
  unfold differing, dictionary_item_added, values_changed,
    dictionary_item_removed.
  rewrite !NoDup_app. repeat split.
  - apply NoDup_filter, NoDup_dict_keys.
  - intros k [Hnone _]%list_elem_of_filter.
    rewrite elem_of_app, !list_elem_of_filter, !elem_of_dict_keys.
    intros [[_ Hsome]|[_ Hsome]]; rewrite Hnone in Hsome;
      by destruct Hsome.
  - apply NoDup_filter, NoDup_dict_keys.
  - intros k [[Hsome _] _]%list_elem_of_filter.
    rewrite list_elem_of_filter. intros [Hnone _].
    rewrite Hnone in Hsome. by destruct Hsome.
  - apply NoDup_filter, NoDup_dict_keys.
Qed.

Lemma differing_sym (t1 t2 : Headers) : differing t1 t2 ≡ₚ differing t2 t1.
Proof.
  apply NoDup_Permutation; [apply NoDup_differing..|].
  intros k. rewrite !elem_of_differing. split; congruence.
Qed.

Lemma header_diff_sym (t1 t2 : Headers) :
  header_diff t1 t2 ≡ₚ header_diff t2 t1.
Proof.
  rewrite !header_diff_differing. apply fmap_Permutation, differing_sym.
Qed.

Lemma lookup_heap_without (ignored : list string) (l1 l2 l : loc)
    (hp : gmap loc Headers) :
  heap_without ignored l1 l2 hp !! l
  = if decide (l = l1 ∨ l = l2) then without ignored <$> hp !! l
    else hp !! l.
Proof.
  unfold heap_without, without. revert hp.
  induction ignored as [|k ignored IH]; intros hp; cbn [foldl].
  - destruct (decide (l = l1 ∨ l = l2)); [|done].
    by destruct (hp !! l).
  - rewrite IH, !lookup_alter.
    destruct (decide (l = l1 ∨ l = l2)) as [Hl|Hl],
      (decide (l2 = l)) as [->|H2], (decide (l1 = l)) as [->|H1];
      try done; try (exfalso; intuition congruence);
      destruct (hp !! l); cbn [fmap option_fmap option_map]; try done.
    by rewrite delitem_idemp.
Qed.

Lemma heap_without_sym (ignored : list string) (l1 l2 : loc)
    (hp : gmap loc Headers) :
  heap_without ignored l1 l2 hp = heap_without ignored l2 l1 hp.
Proof.
  apply map_eq. intros l. rewrite !lookup_heap_without.
  destruct (decide (l = l1 ∨ l = l2)), (decide (l = l2 ∨ l = l1));
    try done; exfalso; tauto.
Qed.

Lemma heap_without_idemp (ignored : list string) (l1 l2 : loc)
    (hp : gmap loc Headers) :
  heap_without ignored l1 l2 (heap_without ignored l1 l2 hp)
  = heap_without ignored l1 l2 hp.
Proof.
  apply map_eq. intros l. rewrite !lookup_heap_without.
  destruct (decide (l = l1 ∨ l = l2)); [|done].
  destruct (hp !! l); cbn [fmap option_fmap option_map]; [|done].
  by rewrite without_idemp.
Qed.

Lemma dom_heap_without (ignored : list string) (l1 l2 : loc)
    (hp : gmap loc Headers) :
  dom (heap_without ignored l1 l2 hp) = dom hp.
Proof.
  apply set_eq. intros l. rewrite !elem_of_dom, lookup_heap_without.
  destruct (decide (l = l1 ∨ l = l2)); [|done].
  by rewrite fmap_is_Some.
Qed.

Section HeaderComparison.

Context {json : Type}.


(** X2. [compare_headers] works on the two header objects themselves: when it
    returns, each of them has lost the ignored names, in whatever case they
    were spelled, and kept every other entry; no other object has changed,
    no object was created, and no answer of the transport or token was used
    up. *)
Theorem compare_headers_effect (ignored : list string) (l1 l2 : loc)
    (w : @World json) :
  let w' := (compare_headers ignored l1 l2 w).2 in
  (∀ (l : loc) (k : string),
     headers_at (heap w') l !! k
     = if decide ((l = l1 ∨ l = l2) ∧ ignores ignored k) then None
       else headers_at (heap w) l !! k)
  ∧ dom (heap w') = dom (heap w)
  ∧ pending w' = pending w
  ∧ draws w' = draws w.
Proof.
  rewrite compare_headers_run. cbn [snd heap pending draws].
  split; [|by rewrite dom_heap_without].
  intros l k. rewrite headers_at_heap_without.
  destruct (decide (l = l1 ∨ l = l2)) as [Hl|Hl].
  - rewrite lookup_without.
    destruct (decide (ignores ignored k)),
      (decide ((l = l1 ∨ l = l2) ∧ ignores ignored k));
      try done; exfalso; tauto.
  - rewrite decide_False by tauto. done.
Qed.

(** X3. The order of the two arguments does not matter: the same names come
    back, possibly in another order, and the heap ends up the same. *)
Theorem compare_headers_sym (ignored : list string) (l1 l2 : loc)
    (w : @World json) :
  ∃ (names names' : list string),
    (compare_headers ignored l1 l2 w).1 = Ret names
    ∧ (compare_headers ignored l2 l1 w).1 = Ret names'
    ∧ names ≡ₚ names'
    ∧ heap (compare_headers ignored l1 l2 w).2
      = heap (compare_headers ignored l2 l1 w).2.
Proof.
  rewrite !compare_headers_run. eexists _, _.
  split; [reflexivity|]. split; [reflexivity|]. cbn [snd heap].
  split; [apply header_diff_sym | apply heap_without_sym].
Qed.

(** X4. Asking again changes nothing: a second [compare_headers] on the same
    objects with the same ignore list returns the same names and leaves the
    heap as the first call left it. *)
Theorem compare_headers_again (ignored : list string) (l1 l2 : loc)
    (w : @World json) :
  let first := compare_headers ignored l1 l2 w in
  let second := compare_headers ignored l1 l2 first.2 in
  second.1 = first.1 ∧ heap second.2 = heap first.2.
Proof.
  cbv zeta. rewrite !compare_headers_run. cbn [fst snd heap].
  rewrite heap_without_idemp. split; [|done].
  rewrite !headers_at_heap_without, !decide_True by tauto.
  by rewrite !without_idemp.
Qed.

End HeaderComparison.

(** ** Verdicts *)

Lemma reflected_iff (add_headers add_cookies : option dict) (body : string) :
  reflected add_headers add_cookies body = true
  ↔ (dict_len add_headers = 1
     ∧ str_in (first_value add_headers) body = true)
    ∨ (dict_len add_headers = 0 ∧ dict_len add_cookies = 1
       ∧ str_in (first_value add_cookies) body = true).
Proof.
  split; [apply reflected_true|].
  unfold reflected.
  destruct add_headers as [[|[k v] [|h hs]]|];
    cbn [dict_truth dict_len length first_value Nat.eqb andb];
    intros [[Hlen Hin]|(Hlen & Hclen & Hin)]; try done.
  - destruct add_cookies as [[|[k v] [|c cs]]|];
      cbn [dict_truth dict_len length first_value Nat.eqb andb] in *;
      done.
  - destruct add_cookies as [[|[k v] [|c cs]]|];
      cbn [dict_truth dict_len length first_value Nat.eqb andb] in *;
      done.
Qed.

Lemma elem_of_mismatch_reasons (reason : option string) :
  reason ∈ mismatch_reasons
  ↔ reason = Some "code" ∨ reason = Some "header" ∨ reason = Some "body".
Proof.
  unfold mismatch_reasons. rewrite !elem_of_cons, elem_of_nil. tauto.
Qed.

Lemma verdict_shape_match (reason : option string) :
  reason = None ∨ reason = Some "403" →
  (true = true ↔ reason = None ∨ reason = Some "403")
  ∧ (true = false ↔ reason ∈ mismatch_reasons)
  ∧ (true = true → false = false).
Proof.
  intros Hreason. rewrite elem_of_mismatch_reasons.
  split; [tauto|]. split; [|done].
  split; [done|]. destruct Hreason as [-> | ->]; intros [?|[?|?]]; done.
Qed.

Lemma verdict_shape_mismatch (reason : option string) (reflection : bool) :
  reason = Some "code" ∨ reason = Some "header" ∨ reason = Some "body" →
  (false = true ↔ reason = None ∨ reason = Some "403")
  ∧ (false = false ↔ reason ∈ mismatch_reasons)
  ∧ (false = true → reflection = false).
Proof.
  intros Hreason. rewrite elem_of_mismatch_reasons.
  split; [|split; [tauto | done]].
  split; [done|]. destruct Hreason as [-> | [-> | ->]]; intros [?|?]; done.
Qed.

Section Verdicts.

Context {json : Type} `{!EqDecision json}.
Variable parse : string → option json.
Variable dist : @content json → @content json → Q.
Variable rand : nat → nat → string.
Variable truth : Response → bool.

(** X5. The three fields of a verdict go together: the match flag is [True]
    exactly when the reason is [None] or "403" and [False] exactly when it
    is "code", "header" or "body"; a matching verdict never reports a
    reflection, also when the injected value is in the body. *)
Theorem compare_verdict_shape (self : @HttpCompare json) (subject : string)
    (add_headers add_cookies : option dict) (w : @World json) :
  ∃ (matched : bool) (reason : option string) (reflection : bool),
    (compare parse dist rand truth self subject add_headers add_cookies w).1
    = Ret (matched, reason, reflection)
    ∧ (matched = true ↔ reason = None ∨ reason = Some "403")
    ∧ (matched = false ↔ reason ∈ mismatch_reasons)
    ∧ (matched = true → reflection = false).
Proof.
  rewrite compare_run. cbv zeta.
  destruct (next_answer w) as [response|];
    [|eexists _, _, _; split; [reflexivity|];
      apply verdict_shape_match; tauto].
  destruct (truth response);
    [|eexists _, _, _; split; [reflexivity|];
      apply verdict_shape_match; tauto].
  destruct (status_code (baseline self) =? status_code response)%Z.
  - destruct (list_truth _).
    + eexists _, _, _. split; [reflexivity|].
      apply verdict_shape_mismatch. tauto.
    + destruct (Qeq_bool _ _); eexists _, _, _; (split; [reflexivity|]).
      * apply verdict_shape_match. tauto.
      * apply verdict_shape_mismatch. tauto.
  - eexists _, _, _. split; [reflexivity|].
    apply verdict_shape_mismatch. tauto.
Qed.

(** X6. On a mismatch the reflection flag is exact: it is [True] precisely
    when one extra header was given and its value is a contiguous piece of
    the response body, or no extra header and one extra cookie were given
    and the cookie's value is such a piece. *)
Theorem compare_mismatch_reflection (self : @HttpCompare json)
    (subject : string) (add_headers add_cookies : option dict)
    (w w' : @World json) (reason : option string) (reflection : bool) :
  compare parse dist rand truth self subject add_headers add_cookies w
  = (Ret (false, reason, reflection), w') →
  ∃ response : Response,
    next_answer w = Some response
    ∧ (reflection = true
       ↔ (dict_len add_headers = 1
          ∧ ∃ before after : string,
              text response = before ++ first_value add_headers ++ after)
         ∨ (dict_len add_headers = 0 ∧ dict_len add_cookies = 1
            ∧ ∃ before after : string,
                text response = before ++ first_value add_cookies ++ after)).
Proof.
  rewrite compare_run. cbv zeta.
  destruct (next_answer w) as [response|]; [|done].
  destruct (truth response); [|done].
  intros Hrun. exists response. split; [done|].
  rewrite <- !str_in_spec, <- reflected_iff.
  destruct (status_code (baseline self) =? status_code response)%Z.
  - destruct (list_truth _).
    + injection Hrun as _ <- _. done.
    + destruct (Qeq_bool _ _); [done|]. injection Hrun as _ <- _. done.
  - injection Hrun as _ <- _. done.
Qed.

(** X7. A nonzero noise floor rejects the baseline's own body: a response
    with the baseline's status code, no differing header and a body that
    parses to the stored reference form is at distance [0.0], which is not
    the noise floor, so the verdict is a "body" mismatch. *)
Theorem compare_rejects_reference_body (self : @HttpCompare json)
    (subject : string) (add_headers add_cookies : option dict)
    (w : @World json) (response : Response) :
  next_answer w = Some response →
  truth response = true →
  status_code (baseline self) = status_code response →
  different_headers self w response = [] →
  structural parse (text response) = baseline_json self →
  ¬ (baseline_body_distance self == 0)%Q →
  (compare parse dist rand truth self subject add_headers add_cookies w).1
  = Ret (false, Some "body",
         reflected add_headers add_cookies (text response)).
Proof.
  intros Hanswer Husable Hcode Hheaders Hbody Hfloor.
  rewrite compare_run, Hanswer, Husable. cbv zeta.
  fold (different_headers self w response).
  rewrite Hcode, Z.eqb_refl, Hheaders, Hbody. cbn [list_truth fst].
  unfold body_distance. rewrite decide_True by done.
  apply Qeq_bool_false in Hfloor. by rewrite Hfloor.
Qed.

End Verdicts.

(** ** Calls in sequence *)

Lemma ignores_subseteq (names ignored : list string) (k : string) :
  (∀ name : string, name ∈ names → name ∈ ignored) →
  ignores names k → ignores ignored k.
Proof.
  intros Hsub (name & Hlow & Hname)%list_elem_of_fmap.
  apply (ignores_elem_of ignored name); [by apply Hsub | done].
Qed.

Lemma without_heap_without (ignored names : list string) (la lb l : loc)
    (hp : gmap loc Headers) :
  (∀ k : string, k ∈ names → k ∈ ignored) →
  without ignored (headers_at (heap_without names la lb hp) l)
  = without ignored (headers_at hp l).
Proof.
  intros Hsub. rewrite headers_at_heap_without.
  destruct (decide (l = la ∨ l = lb)); [|done].
  apply map_eq. intros k. rewrite !lookup_without.
  destruct (decide (ignores ignored k)) as [|Hk]; [done|].
  destruct (decide (ignores names k)) as [Hin|]; [|done].
  by apply (ignores_subseteq names ignored) in Hin.
Qed.

Section Sequences.

Context {json : Type} `{!EqDecision json}.
Variable parse : string → option json.
Variable dist : @content json → @content json → Q.
Variable rand : nat → nat → string.
Variable truth : Response → bool.

(** Deleting ignored names from any two header objects beforehand does not
    change a verdict. *)
Lemma compare_after_deletions (self : @HttpCompare json) (subject : string)
    (add_headers add_cookies : option dict) (w : @World json)
    (names : list string) (la lb : loc) :
  (∀ k : string, k ∈ names → k ∈ baseline_ignore_headers self) →
  (compare parse dist rand truth self subject add_headers add_cookies
           (with_heap w (heap_without names la lb (heap w)))).1
  = (compare parse dist rand truth self subject add_headers add_cookies w).1.
Proof.
  intros Hsub. rewrite !compare_run. cbv zeta.
  unfold next_answer, with_heap. cbn [pending heap].
  destruct (default None (head (pending w))) as [response|]; [|done].
  destruct (truth response); [|done].
  destruct (status_code (baseline self) =? status_code response)%Z; [|done].
  rewrite !without_heap_without by done.
  by destruct (list_truth _).
Qed.

Lemma compare_heap (self : @HttpCompare json) (subject : string)
    (add_headers add_cookies : option dict) (w : @World json) :
  ∃ (names : list string) (la lb : loc),
    heap (compare parse dist rand truth self subject add_headers
                  add_cookies w).2
    = heap_without names la lb (heap w)
    ∧ ∀ k : string, k ∈ names → k ∈ baseline_ignore_headers self.
Proof.
  rewrite compare_run. cbv zeta.
  assert (∃ (names : list string) (la lb : loc),
            heap w = heap_without names la lb (heap w)
            ∧ ∀ k : string, k ∈ names → k ∈ baseline_ignore_headers self)
    as Hsame.
  { exists [], 1%positive, 1%positive. split; [done|].
    intros k Hk. by apply elem_of_nil in Hk. }
  destruct (next_answer w) as [response|]; [|exact Hsame].
  destruct (truth response); [|exact Hsame].
  destruct (status_code (baseline self) =? status_code response)%Z;
    [|exact Hsame].
  destruct (list_truth _); by eexists _, _, _.
Qed.

(** X8. A verdict does not depend on the comparisons made before it: the
    header deletions an earlier [compare] left in the heap change nothing,
    the later call returns what it would return on the heap as it was
    before the earlier call. *)
Theorem compare_independent_of_earlier (self : @HttpCompare json)
    (subject_1 subject_2 : string)
    (headers_1 cookies_1 headers_2 cookies_2 : option dict)
    (w : @World json) :
  (compare parse dist rand truth self subject_2 headers_2 cookies_2
     (compare parse dist rand truth self subject_1 headers_1 cookies_1 w).2).1
  = (compare parse dist rand truth self subject_2 headers_2 cookies_2
       (with_heap
          (compare parse dist rand truth self subject_1 headers_1
                   cookies_1 w).2
          (heap w))).1.
Proof.
  destruct (compare_heap self subject_1 headers_1 cookies_1 w)
    as (names & la & lb & Hheap & Hsub).
  destruct (compare parse dist rand truth self subject_1 headers_1
              cookies_1 w) as [v [hp1 answers n log]].
  cbn [snd heap] in *. subst hp1.
  rewrite <- (compare_after_deletions self subject_2 headers_2 cookies_2
                (with_heap (mkWorld (heap_without names la lb (heap w))
                                    answers n log) (heap w))
                names la lb Hsub).
  reflexivity.
Qed.

End Sequences.

(** ** More about calibration *)

Section CalibrationMore.

Context {json : Type} `{!EqDecision json}.
Variable parse : string → option json.
Variable dist : @content json → @content json → Q.
Variable rand : nat → nat → string.

(** X9. When the transport has no answer to one of the two calibration
    requests, the constructor raises [AttributeError] on the missing
    response's [status_code], after both requests were made: there is no
    instance, and no second kind of failure is told apart. *)
Theorem calibration_missing_answer_raises (url : string) (w : @World json) :
  next_answer w = None ∨ second_answer w = None →
  HttpCompare_init parse dist rand url w
  = (Raise AttributeError, after_calibration rand url w [] (heap w)).
Proof.
  intros Hmissing. rewrite HttpCompare_init_run.
  destruct Hmissing as [-> | ->]; [done|].
  by destruct (next_answer w).
Qed.


End CalibrationMore.

(** ** Calibration, then a comparison *)

Section EndToEnd.

Context {json : Type} `{!EqDecision json}.
Variable parse : string → option json.
Variable dist : @content json → @content json → Q.
Variable rand : nat → nat → string.
Variable truth : Response → bool.

(** X11. Noise learnt during calibration is tolerated afterwards.  If the two
    calibration answers have the same status code and the same body, and
    the next answer has that status code, outside 400..599, and that body,
    and differs from the first answer only on header names that are, up to
    case, a seeded name or a name without apostrophe on which the two
    calibration answers differed, then calibration succeeds and the
    comparison is a match. *)
Theorem stable_site_matches (url subject : string)
    (add_headers add_cookies : option dict) (w : @World json)
    (b1 b2 b3 : Response) (rest : list (option Response)) :
  pending w = Some b1 :: Some b2 :: Some b3 :: rest →
  ¬ (400 ≤ status_code b3 < 600)%Z →
  status_code b1 = status_code b2 →
  status_code b1 = status_code b3 →
  text b1 = text b2 →
  text b1 = text b3 →
  (∀ k : string,
     headers_at (heap w) (headers b1) !! k
     ≠ headers_at (heap w) (headers b3) !! k →
     ignores seeded_ignore_headers k
     ∨ ∃ moved : string,
         lower moved = lower k
         ∧ before_apostrophe moved = moved
         ∧ headers_at (heap w) (headers b1) !! moved
           ≠ headers_at (heap w) (headers b2) !! moved) →
  ∃ (self : @HttpCompare json) (w1 : @World json),
    HttpCompare_init parse dist rand url w = (Ret self, w1)
    ∧ (compare parse dist rand ok self subject add_headers add_cookies
               w1).1
      = Ret (true, None, false).
Proof.
  intros Hpending Husable Hcode2 Hcode3 Htext2 Htext3 Hheaders.
  apply ok_true in Husable.
  assert (next_answer w = Some b1) as H1
    by (unfold next_answer; by rewrite Hpending).
  assert (second_answer w = Some b2) as H2
    by (unfold second_answer; by rewrite Hpending).
  assert (∀ more hp,
            next_answer (after_calibration rand url w more hp) = Some b3)
    as H3
    by (intros; unfold next_answer, after_calibration; cbn [pending];
        by rewrite Hpending).
  rewrite HttpCompare_init_run, H1, H2, Hcode2, Z.eqb_refl. cbv zeta.
  eexists _, _. split; [reflexivity|].
  rewrite compare_run, H3, Husable. cbv zeta.
  cbn [after_calibration heap baseline baseline_json baseline_ignore_headers
       baseline_body_distance].
  rewrite <- Hcode3, Z.eqb_refl.
  set (ignored := (seeded_ignore_headers ++ _)%list).
  assert (∀ k : string, k ∈ seeded_ignore_headers → k ∈ ignored) as Hseeds
    by (intros k Hk; apply elem_of_app; by left).
  rewrite !without_heap_without by exact Hseeds.
  assert (without ignored (headers_at (heap w) (headers b1))
          = without ignored (headers_at (heap w) (headers b3))) as ->.
  { apply map_eq. intros k. rewrite !lookup_without.
    destruct (decide (ignores ignored k)) as [|Hk]; [done|].
    destruct (decide (headers_at (heap w) (headers b1) !! k
                      = headers_at (heap w) (headers b3) !! k)) as [|Hne];
      [done|].
    exfalso. apply Hk. subst ignored. apply ignores_app.
    destruct (Hheaders k Hne) as [Hseed | (moved & Hlow & Hplain & Hmoved)];
      [by left|].
    destruct (decide (ignores seeded_ignore_headers k)) as [|Hseed];
      [by left|].
    right. apply (ignores_elem_of _ moved); [|done].
    rewrite header_diff_differing, <- Hplain.
    apply list_elem_of_fmap_2, elem_of_differing.
    rewrite !lookup_without.
    rewrite !decide_False; [done|..];
      unfold ignores in *; by rewrite Hlow. }
  rewrite (proj2 (header_diff_nil _ _) eq_refl). cbn [list_truth fst].
  rewrite <- Htext3, <- Htext2.
  assert ((calibration_forms parse (text b1) (text b1)).1
          = structural parse (text b1)) as Hform
    by (unfold calibration_forms, structural; by destruct (parse (text b1))).
  rewrite <- calibration_forms_same, Hform.
  unfold body_distance. rewrite !decide_True by done. reflexivity.
Qed.

End EndToEnd.

(** ** The line fallback *)

Lemma split_lines_not_nil (s : string) : split_lines s ≠ [].
Proof.
  destruct s as [|c rest]; [done|]. cbn [split_lines].
  destruct (Ascii.eqb c newline); [done|]. by destruct (split_lines rest).
Qed.

Lemma join_lines_cons (c : Ascii.ascii) (piece : string)
    (pieces : list string) :
  join_lines (String c piece :: pieces) = String c (join_lines (piece :: pieces)).
Proof. by destruct pieces. Qed.

(** X12. Falling back to lines loses nothing of a body: joining the lines
    with newlines gives the body back, so two bodies have the same lines
    only when they are the same text. *)
Theorem split_lines_round_trip (body other : string) :
  join_lines (split_lines body) = body
  ∧ (split_lines body = split_lines other → body = other).
Proof.
  assert (∀ s : string, join_lines (split_lines s) = s) as Hjoin.
  { induction s as [|c rest IH]; [done|]. cbn [split_lines].
    destruct (Ascii.eqb_spec c newline) as [->|Hc].
    - pose proof (split_lines_not_nil rest) as Hne.
      cbn [join_lines]. destruct (split_lines rest) as [|l ls]; [done|].
      by rewrite IH.
    - pose proof (split_lines_not_nil rest) as Hne.
      destruct (split_lines rest) as [|l ls]; [done|].
      by rewrite join_lines_cons, IH. }
  split; [apply Hjoin|].
  intros Heq. rewrite <- (Hjoin body), <- (Hjoin other). by rewrite Heq.
Qed.

(** ** More runs on the site *)

Import Cases.

(** A redirect answered to a probe whose single header comes back in the
    body. *)
Lemma compare_mismatch_reflection_witness :
  run_compare calibrated subject one_header None world_redirect
  = (Ret (false, Some "code", true),
     (run_compare calibrated subject one_header None world_redirect).2)
  ∧ ∃ response : Response,
      next_answer world_redirect = Some response
      ∧ (true = true
         ↔ (dict_len one_header = 1
            ∧ ∃ before after : string,
                text response = before ++ first_value one_header ++ after)
           ∨ (dict_len one_header = 0 ∧ dict_len (@None dict) = 1
              ∧ ∃ before after : string,
                  text response = before ++ first_value None ++ after)).
Proof.
  assert (run_compare calibrated subject one_header None world_redirect
          = (Ret (false, Some "code", true),
             (run_compare calibrated subject one_header None
                          world_redirect).2)) as Hrun
    by reflexivity.
  split; [exact Hrun|].
  exact (compare_mismatch_reflection parse distance token ok calibrated
           subject one_header None world_redirect _ (Some "code") true Hrun).
Defined.

(** The baseline page itself, probed against a noise floor of 0.12. *)
Lemma compare_rejects_reference_body_witness :
  next_answer world_same = Some same_page
  ∧ ok same_page = true
  ∧ status_code (baseline noisy) = status_code same_page
  ∧ different_headers noisy world_same same_page = []
  ∧ structural parse (text same_page) = baseline_json noisy
  ∧ ¬ (baseline_body_distance noisy == 0)%Q
  ∧ (run_compare noisy subject None None world_same).1
    = Ret (false, Some "body", false).
Proof.
  repeat (split; [reflexivity|]).
  assert (¬ (baseline_body_distance noisy == 0)%Q) as Hfloor by discriminate.
  split; [exact Hfloor|].
  exact (compare_rejects_reference_body parse distance token ok noisy subject
           None None world_same same_page
           eq_refl eq_refl eq_refl eq_refl eq_refl Hfloor).
Defined.

(** The second calibration request is lost. *)
Lemma calibration_missing_answer_raises_witness :
  second_answer world_lost = None
  ∧ (init world_lost).1 = Raise AttributeError
  ∧ length (calls (init world_lost).2) = 5.
Proof.
  split; [reflexivity|]. unfold init.
  rewrite (calibration_missing_answer_raises parse distance token url
             world_lost (or_intror eq_refl)).
  split; reflexivity.
Defined.


Lemma site_headers_stable (k : string) :
  headers_at (heap world_stable) 1 !! k ≠ headers_at (heap world_stable) 3 !! k →
  ignores seeded_ignore_headers k
  ∨ ∃ moved : string,
      lower moved = lower k
      ∧ before_apostrophe moved = moved
      ∧ headers_at (heap world_stable) 1 !! moved
        ≠ headers_at (heap world_stable) 2 !! moved.
Proof.
  change (headers_at (heap world_stable) 1) with headers_a.
  change (headers_at (heap world_stable) 2) with headers_b.
  change (headers_at (heap world_stable) 3) with headers_c.
  unfold headers_a, headers_b, headers_c. cbn [list_to_map foldr uncurry].
  intros Hne.
  destruct (decide (k = "Date")) as [->|Hdate].
  { left. apply (ignores_elem_of _ "date"); [apply list_elem_of_here | done]. }
  destruct (decide (k = "ETag")) as [->|Hetag].
  { right. exists "ETag". split; [done|]. split; [done|].
    rewrite !(lookup_insert_ne _ "Date" "ETag") by done.
    rewrite !(lookup_insert_ne _ "Server" "ETag") by done.
    rewrite !lookup_insert_eq. discriminate. }
  exfalso. apply Hne.
  rewrite !(lookup_insert_ne _ "Date" k) by done.
  destruct (decide (k = "Server")) as [->|Hserver];
    [by rewrite !lookup_insert_eq|].
  rewrite !(lookup_insert_ne _ "Server" k) by done.
  by rewrite !(lookup_insert_ne _ "ETag" k) by done.
Defined.

(** Calibration and one probe on the stable site: the [ETag] that moved
    during calibration moves again and is not held against the probe. *)
Lemma stable_site_matches_witness :
  pending world_stable
  = [answer 200 1 page; answer 200 2 page; Some same_page]
  ∧ ¬ (400 ≤ status_code same_page < 600)%Z
  ∧ headers_at (heap world_stable) 1 !! "ETag"
    ≠ headers_at (heap world_stable) 3 !! "ETag"
  ∧ ∃ (self : @HttpCompare string) (w1 : @World string),
      init world_stable = (Ret self, w1)
      ∧ (run_compare self subject one_header None w1).1
        = Ret (true, None, false).
Proof.
  split; [reflexivity|].
  assert (¬ (400 ≤ status_code same_page < 600)%Z) as Hstatus
    by (cbn [status_code same_page]; lia).
  split; [exact Hstatus|]. split; [discriminate|].
  exact (stable_site_matches parse distance token url subject one_header
           None world_stable (mkResponse 200 1 page) (mkResponse 200 2 page)
           same_page [] eq_refl Hstatus eq_refl eq_refl eq_refl eq_refl
           site_headers_stable).
Defined.

(** Two probes in a row: the second verdict is the one it would get on the
    heap the first probe found. *)
Example compare_twice_on_site :
  (run_compare calibrated subject None None
     (run_compare calibrated subject one_header None world_two_probes).2).1
  = Ret (true, None, false).
Proof. reflexivity. Qed.

(** The lines of a body that ends in a newline. *)
Example split_lines_trailing_newline :
  split_lines ("a" ++ String newline ("b" ++ String newline ""))
  = ["a"; "b"; ""].
Proof. reflexivity. Qed.

(** * The installer *)

Import Deps.

Lemma dbind_run {A B : Type} (m : D A) (k : A → D B) (h : Host) :
  (m ≫= k) h
  = match m h with
    | (Done a, h') => k a h'
    | (Fail e, h') => (Fail e, h')
    end.
Proof. reflexivity. Qed.

Lemma first_failure_host (events : list run_event) (h : Host) :
  (first_failure events h).2 = h.
Proof.
  induction events as [|e events IH]; [done|]. cbn [first_failure].
  destruct (String.eqb _ _); [|done]. by destruct (event_msg e).
Qed.

Lemma first_failure_fail (events : list run_event) (h h' : Host)
    (e : deps_exn) :
  first_failure events h = (Fail e, h') → e = KeyError "msg".
Proof.
  induction events as [|ev events IH]; [done|]. cbn [first_failure].
  destruct (String.eqb _ _); [|done].
  destruct (event_msg ev); [done|]. unfold fail. by intros [= <- _].
Qed.

Lemma host_eta (h : Host) :
  mkHost (preloaded h) (setup_status h) (sudo_password h) (typed h)
         (sigint h) (run_count h) (status_file h) (effects h) = h.
Proof. by destruct h. Qed.

Section InstallerFacts.

Variable sha1_deps : dependencies → string.
Variable sha1_command : string → nat → command → string.
Variable sha1_playbook : option (list task) → string.
Variable runner : nat → run_call → run_answer.
Variable sudo_accepts : string → bool.
Variable config : settings.
Variable env : environment.

(** One [ansible_run]: the data directory is wiped, the runner runs once,
    and apart from the log and the run counter the host is as before; the
    flag returned says whether that run ended "successful". *)
Lemma ansible_run_step (tasks : option (list task)) (module : option string)
    (args ansible_args : option pydict) (h : Host) :
  ∃ (dir : string) (call : run_call) (answer : run_answer)
    (r : result (bool * string)),
    ansible_run sha1_playbook runner config tasks module args ansible_args h
    = (r, mkHost (preloaded h) (setup_status h) (sudo_password h) (typed h)
                 (sigint h) (S (run_count h)) (status_file h)
                 (effects h ++ [Wiped dir; Ran call answer])%list)
    ∧ answer = runner (run_count h) call
    ∧ rc_private_data_dir call = dir
    ∧ match r with
      | Done (success, _) => success = run_ok (Ran call answer)
      | Fail (RunnerError msg) => ∃ handler, answer = RunRaises msg handler
      | Fail (KeyError key) => key = "msg"
      | Fail EOFError => False
      end.
Proof.
  unfold ansible_run.
  rewrite dbind_run. cbn [get_sudo_password].
  rewrite dbind_run. cbn [note].
  rewrite dbind_run. cbn [getsignal sigint].
  rewrite dbind_run. unfold try_finally, run.
  cbn [preloaded setup_status sudo_password typed sigint run_count
       status_file effects].
  match goal with
  | |- context [runner (run_count h) ?c] =>
      set (call := c); destruct (runner (run_count h) call) as
        [msg handler|status events handler] eqn:Hanswer
  end.
  - cbn [signal preloaded setup_status sudo_password typed sigint run_count
         status_file effects].
    eexists _, call, _, _. split; [by rewrite <- app_assoc|].
    split; [by rewrite Hanswer|]. split; [done|]. by exists handler.
  - cbn [signal preloaded setup_status sudo_password typed sigint run_count
         status_file effects fst snd].
    rewrite dbind_run.
    match goal with
    | |- context [first_failure events ?h0] =>
        pose proof (first_failure_host events h0) as Hhost;
        destruct (first_failure events h0) as [[err|e] h1] eqn:Hfirst
    end; cbn [snd] in Hhost; subst h1.
    + eexists _, call, _, _. split; [by rewrite <- app_assoc|].
      split; [by rewrite Hanswer|]. split; [done|]. done.
    + eexists _, call, _, _. split; [by rewrite <- app_assoc|].
      split; [by rewrite Hanswer|]. split; [done|].
      by rewrite (first_failure_fail _ _ _ _ Hfirst).
Qed.

(** X13. [ansible_run] puts back the SIGINT handler it found, whatever
    handler the run leaves installed and whether the run returns or raises;
    it makes exactly one run, and it leaves the preloaded modules, the setup
    status, the sudo password, the terminal and the status file alone. *)
Theorem ansible_run_restores_sigint (tasks : option (list task))
    (module : option string) (args ansible_args : option pydict) (h : Host) :
  ∃ (r : result (bool * string)) (h' : Host),
    ansible_run sha1_playbook runner config tasks module args ansible_args h
    = (r, h')
    ∧ sigint h' = sigint h
    ∧ run_count h' = S (run_count h)
    ∧ preloaded h' = preloaded h
    ∧ setup_status h' = setup_status h
    ∧ sudo_password h' = sudo_password h
    ∧ typed h' = typed h
    ∧ status_file h' = status_file h.
Proof.
  destruct (ansible_run_step tasks module args ansible_args h)
    as (dir & call & answer & r & Hrun & _).
  eexists _, _. split; [exact Hrun|]. done.
Qed.

Lemma ran_nothing (h : Host) : ran 0 true h h.
Proof. exists []. by rewrite app_nil_r. Qed.

Lemma ran_then (n1 n2 : nat) (b1 b2 : bool) (h h1 h2 : Host) :
  ran n1 b1 h h1 → ran n2 b2 h1 h2 → ran (n1 + n2) (b1 && b2) h h2.
Proof.
  intros (new1 & He1 & -> & <-) (new2 & He2 & -> & <-).
  exists (new1 ++ new2)%list. rewrite He2, He1, <- app_assoc. split; [done|].
  by rewrite forallb_app, List.filter_app, length_app.
Qed.

Lemma via_ansible (tasks : option (list task)) (module : option string)
    (args ansible_args : option pydict) (h h' : Host) (b : bool) :
  (r ← ansible_run sha1_playbook runner config tasks module args
         ansible_args;
   mret r.1) h = (Done b, h') →
  ran 1 b h h'.
Proof.
  rewrite dbind_run.
  destruct (ansible_run_step tasks module args ansible_args h)
    as (dir & call & answer & r & -> & _ & _ & Hr).
  destruct r as [[success err]|e]; [|done].
  intros [= <- <-]. exists [Wiped dir; Ran call answer].
  cbn [effects forallb List.filter is_run run_ok length fst]. subst success.
  split; [done|]. split; [|done].
  cbn [run_ok]. by rewrite andb_true_r.
Qed.

Lemma apt_install_ran (packages : list string) (h h' : Host) (b : bool) :
  apt_install sha1_playbook runner config env packages h = (Done b, h') →
  ran (if has_apt env then 1 else 0) b h h'.
Proof.
  unfold apt_install. destruct (has_apt env); cbn [negb].
  - apply via_ansible.
  - intros [= <- <-]. apply ran_nothing.
Qed.

Lemma pip_install_ran (packages : list string) (h h' : Host) (b : bool) :
  pip_install sha1_playbook runner config env packages h = (Done b, h') →
  ran 1 b h h'.
Proof. unfold pip_install. apply via_ansible. Qed.

Lemma tasks_ran (module : string) (ansible_tasks : list task) (h h' : Host)
    (b : bool) :
  tasks sha1_playbook runner config module ansible_tasks h = (Done b, h') →
  ran 1 b h h'.
Proof. unfold tasks. apply via_ansible. Qed.

Lemma shell_ran (module : string) (commands : list command) (h h' : Host)
    (b : bool) :
  shell sha1_command sha1_playbook runner config module commands h
  = (Done b, h') →
  ran 1 b h h'.
Proof.
  unfold shell. rewrite dbind_run. cbn [set_shell_commands].
  destruct (shell_tasks _ _ _ _ _).1 as [ts|e]; [|done].
  intros Hrun. apply via_ansible in Hrun.
  destruct Hrun as (new & He & Hb & Hn). by exists new.
Qed.

(** X14. [install_module] hands every non-empty kind of dependency to
    Ansible, in the order apt, pip, shell, tasks, and goes on after a kind
    has failed: when it returns, it has made one run per non-empty kind
    (none for apt packages where there is no [apt]) and its result is
    [True] exactly when every one of these runs ended "successful". *)
Theorem install_module_runs_every_kind (module : string)
    (p : preloaded_module) (h h' : Host) (success : bool) :
  preloaded h !! module = Some p →
  install_module sha1_command sha1_playbook runner config env module h
  = (Done success, h') →
  ∃ new : list effect,
    effects h' = (effects h ++ new)%list
    ∧ success = forallb run_ok new
    ∧ length (List.filter is_run new) = kinds_to_run env (deps p).
Proof.
  intros Hp. unfold install_module.
  rewrite dbind_run. cbn [get_preloaded]. rewrite Hp.
  rewrite dbind_run.
  match goal with |- match ?c with _ => _ end = _ → _ =>
    destruct c as [[ok_apt|e] h1] eqn:Hapt; [|done] end.
  rewrite dbind_run.
  match goal with |- match ?c with _ => _ end = _ → _ =>
    destruct c as [[ok_pip|e] h2] eqn:Hpip; [|done] end.
  rewrite dbind_run.
  match goal with |- match ?c with _ => _ end = _ → _ =>
    destruct c as [[ok_shell|e] h3] eqn:Hshell; [|done] end.
  rewrite dbind_run.
  match goal with |- match ?c with _ => _ end = _ → _ =>
    destruct c as [[ok_tasks|e] h4] eqn:Htasks; [|done] end.
  intros [= <- <-]. unfold kinds_to_run.
  assert (ran (if has_apt env && list_truth (deps_apt (deps p))
               then 1 else 0) ok_apt h h1) as R1.
  { destruct (deps_apt (deps p)) as [|x xs].
    - injection Hapt as <- <-. rewrite andb_false_r. apply ran_nothing.
    - apply apt_install_ran in Hapt. by rewrite andb_true_r. }
  assert (ran (if list_truth (deps_pip (deps p)) then 1 else 0)
              ok_pip h1 h2) as R2.
  { destruct (deps_pip (deps p)) as [|x xs].
    - injection Hpip as <- <-. apply ran_nothing.
    - by apply pip_install_ran in Hpip. }
  assert (ran (if list_truth (deps_shell (deps p)) then 1 else 0)
              ok_shell h2 h3) as R3.
  { destruct (deps_shell (deps p)) as [|x xs].
    - injection Hshell as <- <-. apply ran_nothing.
    - by apply shell_ran in Hshell. }
  assert (ran (if list_truth (deps_ansible (deps p)) then 1 else 0)
              ok_tasks h3 h4) as R4.
  { destruct (deps_ansible (deps p)) as [|x xs].
    - injection Htasks as <- <-. apply ran_nothing.
    - by apply tasks_ran in Htasks. }
  pose proof (ran_then _ _ _ _ _ _ _ (ran_then _ _ _ _ _ _ _
                (ran_then _ _ _ _ _ _ _ R1 R2) R3) R4) as R.
  exact R.
Qed.

(** X15. Where there is no [apt], a module that declares apt packages only
    is reported as set up although nothing is installed: [install_module]
    returns [True] and the host is untouched. *)
Theorem install_module_without_apt (module : string) (p : preloaded_module)
    (h : Host) :
  preloaded h !! module = Some p →
  has_apt env = false →
  deps_pip (deps p) = [] →
  deps_shell (deps p) = [] →
  deps_ansible (deps p) = [] →
  install_module sha1_command sha1_playbook runner config env module h
  = (Done true, h).
Proof.
  intros Hp Hapt Hpip Hshell Htasks. unfold install_module.
  rewrite dbind_run. cbn [get_preloaded]. rewrite Hp, Hpip, Hshell, Htasks.
  unfold apt_install. rewrite Hapt. cbn [negb].
  by destruct (deps_apt (deps p)).
Qed.

(** ** Root privileges *)

Lemma ask_password_known (lines : list string) (h : Host) :
  password_truth (sudo_password h) = true →
  ask_password sudo_accepts lines h = (Done (), h).
Proof. intros Htruth. destruct lines; cbn [ask_password]; by rewrite Htruth. Qed.

Lemma ask_password_next (line : string) (more : list string) (h : Host) :
  password_truth (sudo_password h) = false →
  ask_password sudo_accepts (line :: more) h
  = ask_password sudo_accepts more
      (mkHost (preloaded h) (setup_status h)
              (if sudo_accepts line then Some line else sudo_password h)
              more (sigint h) (run_count h) (status_file h)
              (effects h ++ [Prompted line (sudo_accepts line)])%list).
Proof.
  intros Htruth. cbn [ask_password]. rewrite Htruth.
  rewrite dbind_run. cbn [took_line]. rewrite dbind_run.
  unfold verify_sudo_password. rewrite dbind_run.
  cbn [note preloaded setup_status sudo_password typed sigint run_count
       status_file effects].
  unfold mret at 1, D_ret. rewrite dbind_run. unfold keep_if.
  by destruct (sudo_accepts line).
Qed.

Lemma ask_password_spec (lines : list string) (h : Host) :
  ∃ (r : result ()) (password : option string) (left : list string)
    (prompts : list effect),
    ask_password sudo_accepts lines h
    = (r, mkHost (preloaded h) (setup_status h) password left (sigint h)
                 (run_count h) (status_file h)
                 (effects h ++ prompts)%list)
    ∧ forallb is_prompt prompts = true
    ∧ (password = sudo_password h
       ∨ ∃ p, password = Some p ∧ sudo_accepts p = true ∧ p ∈ lines)
    ∧ match r with
      | Done _ => password_truth password = true
      | Fail e =>
          e = EOFError
          ∧ (lines = typed h → left = [])
          ∧ ∀ p, p ∈ lines → sudo_accepts p = true → p = EmptyString
      end.
Proof.
  revert h. induction lines as [|line more IH]; intros h.
  - cbn [ask_password].
    destruct (password_truth (sudo_password h)) eqn:Htruth.
    + exists (Done ()), (sudo_password h), (typed h), [].
      rewrite app_nil_r, host_eta. split; [done|]. split; [done|].
      split; [by left | done].
    + exists (Fail EOFError), (sudo_password h), (typed h), [].
      rewrite app_nil_r, host_eta. split; [done|]. split; [done|].
      split; [by left|]. split; [done|]. split; [done|].
      intros p Hp. by apply elem_of_nil in Hp.
  - destruct (password_truth (sudo_password h)) eqn:Htruth.
    + rewrite ask_password_known by done.
      exists (Done ()), (sudo_password h), (typed h), [].
      rewrite app_nil_r, host_eta. split; [done|]. split; [done|].
      split; [by left | done].
    + rewrite ask_password_next by done.
      match goal with |- context [ask_password _ more ?h0] =>
        destruct (IH h0) as (r & password & left & prompts & Hrun & Hpr
                             & Hpw & Hr) end.
      cbn [preloaded setup_status sudo_password typed sigint run_count
           status_file effects] in *.
      exists r, password, left,
        (Prompted line (sudo_accepts line) :: prompts).
      rewrite Hrun, <- app_assoc. split; [done|]. split; [done|].
      destruct (sudo_accepts line) eqn:Hline.
      * split.
        { right. destruct Hpw as [-> | (p & -> & Hp & Hin)].
          - exists line. split; [done|]. split; [done|].
            apply list_elem_of_here.
          - exists p. split; [done|]. split; [done|].
            by apply list_elem_of_further. }
        destruct r as [[]|e]; [done|].
        destruct Hr as (-> & Hleft & Hnone). split; [done|].
        split; [auto|].
        intros p [Heq|Hp]%elem_of_cons Hacc; [|by apply Hnone].
        subst p. destruct line as [|c line]; [done|]. exfalso.
        clear Hpw Hpr Hleft Hnone.
        match goal with H : ask_password _ more ?h0 = _ |- _ =>
          rewrite (ask_password_known more h0 eq_refl) in H;
          discriminate H end.
      * split.
        { destruct Hpw as [-> | (p & -> & Hp & Hin)]; [by left|].
          right. exists p. split; [done|]. split; [done|].
          by apply list_elem_of_further. }
        destruct r as [[]|e]; [done|].
        destruct Hr as (-> & Hleft & Hnone). split; [done|].
        split; [auto|].
        intros p [->|Hp]%elem_of_cons Hacc; [congruence | by apply Hnone].
Qed.

(** X16. [ensure_root] asks for a password only when the process is not root
    and no password is known; then it keeps prompting until a line is
    accepted by [sudo] and is not empty, and stores that line.  It gives up
    with [EOFError] only when the terminal has run out of lines, none of
    which was both accepted and non-empty.  It touches nothing but the
    password, the terminal and the log, to which it adds prompts only. *)
Theorem ensure_root_password (h : Host) :
  ∃ (r : result ()) (h' : Host) (prompts : list effect),
    ensure_root sudo_accepts env h = (r, h')
    ∧ preloaded h' = preloaded h
    ∧ setup_status h' = setup_status h
    ∧ status_file h' = status_file h
    ∧ run_count h' = run_count h
    ∧ effects h' = (effects h ++ prompts)%list
    ∧ forallb is_prompt prompts = true
    ∧ (euid env = 0 ∨ sudo_password h ≠ None → r = Done () ∧ h' = h)
    ∧ match r with
      | Done _ =>
          euid env ≠ 0 → sudo_password h = None →
          ∃ p : string,
            sudo_password h' = Some p ∧ p ≠ EmptyString
            ∧ sudo_accepts p = true ∧ p ∈ typed h
      | Fail e =>
          e = EOFError ∧ typed h' = []
          ∧ ∀ p : string, p ∈ typed h → sudo_accepts p = true →
              p = EmptyString
      end.
Proof.
  unfold ensure_root.
  destruct (Nat.eqb_spec (euid env) 0) as [Hroot|Hroot]; cbn [negb andb].
  { exists (Done ()), h, []. rewrite app_nil_r.
    do 7 (split; [done|]). split; [by intros _|]. by intros Hnot. }
  destruct (sudo_password h) as [known|] eqn:Hknown.
  { rewrite bool_decide_eq_false_2 by done.
    exists (Done ()), h, []. rewrite app_nil_r.
    do 7 (split; [done|]). split; [by intros _|]. by intros _ Hnone. }
  rewrite bool_decide_eq_true_2 by done.
  destruct (ask_password_spec (typed h) h)
    as (r & password & left & prompts & -> & Hprompts & Hpw & Hr).
  eexists _, _, prompts. split; [reflexivity|].
  cbn [preloaded setup_status status_file run_count effects sudo_password
       typed].
  do 6 (split; [done|]).
  split; [intros [?|?]; done|].
  destruct r as [[]|e].
  - intros _ _. rewrite Hknown in Hpw.
    destruct Hpw as [-> | (p & -> & Hp & Hin)]; [done|].
    exists p. split; [done|]. split; [|done]. by intros ->.
  - destruct Hr as (-> & Hleft & Hnone). auto.
Qed.

(** ** What the installer leaves of the preloaded modules *)

Lemma via_ansible_preloaded (tasks : option (list task))
    (module : option string) (args ansible_args : option pydict)
    (h h' : Host) (r : result bool) :
  (r ← ansible_run sha1_playbook runner config tasks module args
         ansible_args;
   mret r.1) h = (r, h') →
  preloaded h' = preloaded h ∧ setup_status h' = setup_status h.
Proof.
  rewrite dbind_run.
  destruct (ansible_run_step tasks module args ansible_args h)
    as (dir & call & answer & r0 & -> & _).
  destruct r0 as [[success err]|e]; by intros [= _ <-].
Qed.

Lemma shell_tasks_length (module : string) (i : nat)
    (commands : list command) :
  length (shell_tasks sha1_command config module i commands).2
  = length commands.
Proof.
  revert i. induction commands as [|c commands IH]; intros i; [done|].
  cbn [shell_tasks]. destruct (entries_get "cmd" _); [|done].
  specialize (IH (S i)).
  destruct (shell_tasks sha1_command config module (S i) commands)
    as [[ts|e] left]; cbn [snd length] in *; by rewrite IH.
Qed.

Lemma install_module_counts (module : string) (h h' : Host)
    (r : result bool) :
  install_module sha1_command sha1_playbook runner config env module h
  = (r, h') →
  dependency_counts h' = dependency_counts h
  ∧ setup_status h' = setup_status h.
Proof.
  unfold install_module. rewrite dbind_run. cbn [get_preloaded].
  destruct (preloaded h !! module) as [p|] eqn:Hp;
    [|by intros [= _ <-]].
  assert (∀ (packages : list string) (h1 h2 : Host) (r1 : result bool),
            match packages with
            | [] => mret true
            | x :: xs =>
                apt_install sha1_playbook runner config env (x :: xs)
            end h1 = (r1, h2) →
            preloaded h2 = preloaded h1
            ∧ setup_status h2 = setup_status h1) as Fapt.
  { intros [|x xs] h1 h2 r1; [by intros [= _ <-]|].
    unfold apt_install. destruct (has_apt env); cbn [negb];
      [apply via_ansible_preloaded | by intros [= _ <-]]. }
  assert (∀ (packages : list string) (h1 h2 : Host) (r1 : result bool),
            match packages with
            | [] => mret true
            | x :: xs =>
                pip_install sha1_playbook runner config env (x :: xs)
            end h1 = (r1, h2) →
            preloaded h2 = preloaded h1
            ∧ setup_status h2 = setup_status h1) as Fpip.
  { intros [|x xs] h1 h2 r1; [by intros [= _ <-]|].
    unfold pip_install. apply via_ansible_preloaded. }
  assert (∀ (ts : list task) (h1 h2 : Host) (r1 : result bool),
            match ts with
            | [] => mret true
            | x :: xs =>
                tasks sha1_playbook runner config module (x :: xs)
            end h1 = (r1, h2) →
            preloaded h2 = preloaded h1
            ∧ setup_status h2 = setup_status h1) as Ftasks.
  { intros [|x xs] h1 h2 r1; [by intros [= _ <-]|].
    unfold tasks. apply via_ansible_preloaded. }
  assert (∀ (h1 h2 : Host) (r1 : result bool),
            preloaded h1 = preloaded h →
            match deps_shell (deps p) with
            | [] => mret true
            | x :: xs =>
                shell sha1_command sha1_playbook runner config module
                      (x :: xs)
            end h1 = (r1, h2) →
            dependency_counts h2 = dependency_counts h
            ∧ setup_status h2 = setup_status h1) as Fshell.
  { intros h1 h2 r1 Hh1.
    destruct (deps_shell (deps p)) as [|x xs] eqn:Hcommands.
    { intros [= _ <-]. unfold dependency_counts. by rewrite Hh1. }
    unfold shell. rewrite dbind_run. cbn [set_shell_commands].
    pose proof (shell_tasks_length module 0 (x :: xs)) as Hlen.
    destruct (shell_tasks sha1_command config module 0 (x :: xs))
      as [built left]. cbn [fst snd] in *.
    match goal with |- context [mkHost ?pre _ _ _ _ _ _ _] =>
      assert ((λ q, dependency_count (deps q)) <$> pre
              = dependency_counts h) as Hcounts end.
    { unfold dependency_counts. apply map_eq. intros k.
      rewrite Hh1, !lookup_fmap, lookup_alter.
      destruct (decide (module = k)) as [<-|]; [|done].
      rewrite Hp. cbn [fmap option_fmap option_map deps].
      unfold dependency_count. cbn [deps_apt deps_pip deps_shell
                                    deps_ansible].
      by rewrite Hlen, Hcommands. }
    destruct built as [ts|e].
    - intros Hrun. apply via_ansible_preloaded in Hrun as [Hpre Hst].
      cbn [preloaded setup_status] in *.
      unfold dependency_counts at 1. by rewrite Hpre.
    - by intros [= _ <-]. }
  rewrite dbind_run.
  match goal with |- match ?c with _ => _ end = _ → _ =>
    destruct c as [r1 h1] eqn:H1 end.
  apply Fapt in H1 as [P1 S1]. destruct r1 as [ok1|e];
    [|intros [= _ <-]; unfold dependency_counts; by rewrite P1].
  rewrite dbind_run.
  match goal with |- match ?c with _ => _ end = _ → _ =>
    destruct c as [r2 h2] eqn:H2 end.
  apply Fpip in H2 as [P2 S2]. destruct r2 as [ok2|e];
    [|intros [= _ <-]; unfold dependency_counts; by rewrite P2, P1, S2].
  rewrite dbind_run.
  match goal with |- match ?c with _ => _ end = _ → _ =>
    destruct c as [r3 h3] eqn:H3 end.
  apply Fshell in H3 as [P3 S3]; [|by rewrite P2].
  destruct r3 as [ok3|e];
    [|intros [= _ <-]; by rewrite P3, S3, S2].
  rewrite dbind_run.
  match goal with |- match ?c with _ => _ end = _ → _ =>
    destruct c as [r4 h4] eqn:H4 end.
  apply Ftasks in H4 as [P4 S4].
  destruct r4 as [ok4|e]; intros [= _ <-];
    unfold dependency_counts in *; by rewrite P4, S4, S3, S2.
Qed.

(** ** [install] *)

Lemma lookup_dependency_counts (h : Host) (m : string) :
  dependency_counts h !! m
  = (λ p, dependency_count (deps p)) <$> preloaded h !! m.
Proof. unfold dependency_counts. apply lookup_fmap. Qed.

(** One round of the loop: where the module goes and what is kept. *)
Lemma install_one_done (m : string) (succeeded failed : list string)
    (h h' : Host) (lists : list string * list string) :
  install_one sha1_deps sha1_command sha1_playbook runner sudo_accepts
              config env m succeeded failed h
  = (Done lists, h') →
  ∃ ok : bool,
    lists = settle ok m succeeded failed
    ∧ dependency_counts h' = dependency_counts h
    ∧ (no_deps config = true → ok = true ∧ h' = h)
    ∧ (ok = true → no_deps config = false →
       is_Some (dependency_counts h !! m))
    ∧ (ok = false →
       no_deps config = false
       ∧ dependency_counts h !! m ≠ Some 0
       ∧ (ignore_failed_deps config = true →
          dependency_counts h !! m = None)).
Proof.
  unfold install_one. rewrite lookup_dependency_counts.
  destruct (no_deps config) eqn:Hno.
  { intros [= <- <-]. exists true. by repeat split. }
  rewrite dbind_run. cbn [get_preloaded].
  destruct (preloaded h !! m) as [p|] eqn:Hp.
  2:{ intros [= <- <-]. exists false. by repeat split. }
  rewrite dbind_run. cbn [get_setup_status].
  cbn [fmap option_fmap option_map].
  destruct (Nat.leb_spec (dependency_count (deps p)) 0) as [Hzero|Hsome].
  { intros [= <- <-]. exists true. by repeat split. }
  assert (Some (dependency_count (deps p)) ≠ Some 0) as Hcount
    by (intros [= Heq]; lia).
  destruct (wants_setup config (setup_status h !! sha1_deps (deps p))).
  - rewrite dbind_run.
    assert (∃ (r : result ()) (h1 : Host),
              (if needs_sudo p then ensure_root sudo_accepts env
               else mret ()) h = (r, h1)
              ∧ preloaded h1 = preloaded h) as (r & h1 & -> & Hpre).
    { destruct (needs_sudo p); [|by exists (Done ()), h].
      destruct (ensure_root_password h) as (r & h1 & _ & -> & Hpre & _).
      by exists r, h1. }
    destruct r as [[]|e]; [|done].
    rewrite dbind_run.
    destruct (install_module sha1_command sha1_playbook runner config env
                m h1) as [[success|e] h2] eqn:Hmod; [|done].
    apply install_module_counts in Hmod as [Hcounts _].
    rewrite dbind_run. cbn [set_setup_status].
    intros [= <- <-].
    exists (success || ignore_failed_deps config).
    split; [done|]. split.
    { unfold dependency_counts in *. cbn [preloaded].
      by rewrite Hcounts, Hpre. }
    split; [done|]. split; [by eauto|].
    intros [_ Hign]%orb_false_iff. split; [done|]. split; [done|].
    by rewrite Hign.
  - intros [= <- <-].
    exists (default false (setup_status h !! sha1_deps (deps p))
            || ignore_failed_deps config).
    split; [done|]. split; [done|]. split; [done|]. split; [by eauto|].
    intros [_ Hign]%orb_false_iff. split; [done|]. split; [done|].
    by rewrite Hign.
Qed.

(** The loop: what it appends to the two lists. *)
Lemma install_loop_done (modules succeeded failed : list string)
    (h h' : Host) (lists : list string * list string) :
  install_loop sha1_deps sha1_command sha1_playbook runner sudo_accepts
               config env modules succeeded failed h
  = (Done lists, h') →
  ∃ (more_succeeded more_failed : list string),
    lists = ((succeeded ++ more_succeeded)%list,
             (failed ++ more_failed)%list)
    ∧ (more_succeeded ++ more_failed)%list ≡ₚ modules
    ∧ more_succeeded `sublist_of` modules
    ∧ more_failed `sublist_of` modules
    ∧ dependency_counts h' = dependency_counts h
    ∧ (no_deps config = true → more_failed = [] ∧ h' = h)
    ∧ (∀ m, m ∈ more_succeeded → no_deps config = false →
         is_Some (dependency_counts h !! m))
    ∧ (∀ m, m ∈ more_failed →
         no_deps config = false
         ∧ dependency_counts h !! m ≠ Some 0
         ∧ (ignore_failed_deps config = true →
            dependency_counts h !! m = None)).
Proof.
  revert succeeded failed h lists.
  induction modules as [|m modules IH]; intros succeeded failed h lists.
  - intros [= <- <-]. exists [], []. rewrite !app_nil_r.
    split; [done|]. split; [done|]. split; [constructor|].
    split; [constructor|]. split; [done|]. split; [done|].
    split; intros k Hk; by apply elem_of_nil in Hk.
  - cbn [install_loop]. rewrite dbind_run.
    destruct (install_one _ _ _ _ _ _ _ m succeeded failed h)
      as [[lists1|e] h1] eqn:Hone; [|done].
    apply install_one_done in Hone
      as (ok & -> & Hcounts1 & Hno1 & Hok1 & Hbad1).
    intros Hloop.
    apply IH in Hloop
      as (s2 & f2 & -> & Hperm & Hs2 & Hf2 & Hcounts & Hno & Hgood & Hbad).
    rewrite Hcounts1 in *.
    destruct ok; cbn [settle fst snd].
    + exists (m :: s2), f2. rewrite <- app_assoc. split; [done|].
      split; [by rewrite <- Hperm|].
      split; [by apply sublist_skip|].
      split; [by apply sublist_cons|]. split; [done|].
      split.
      { intros Hnd. destruct (Hno1 Hnd) as [_ ->]. by apply Hno. }
      split; [|done].
      intros k [->|Hk]%elem_of_cons; [by apply Hok1 | by apply Hgood].
    + exists s2, (m :: f2). rewrite <- app_assoc. split; [done|].
      split; [by rewrite <- Permutation_middle, Hperm|].
      split; [by apply sublist_cons|].
      split; [by apply sublist_skip|]. split; [done|].
      split.
      { intros Hnd. by destruct (Hno1 Hnd). }
      split; [done|].
      intros k [->|Hk]%elem_of_cons; [by apply Hbad1 | by apply Hbad].
Qed.

(** X17. [install] sorts every requested module into exactly one of its two
    lists: together the lists are a rearrangement of the modules asked for,
    and each list keeps the order in which they were asked for. *)
Theorem install_sorts_every_module (modules succeeded failed : list string)
    (h h' : Host) :
  install sha1_deps sha1_command sha1_playbook runner sudo_accepts config
          env modules h
  = (Done (succeeded, failed), h') →
  (succeeded ++ failed)%list ≡ₚ modules
  ∧ succeeded `sublist_of` modules
  ∧ failed `sublist_of` modules.
Proof.
  unfold install, try_finally.
  destruct (install_loop _ _ _ _ _ _ _ modules [] [] h)
    as [[lists|e] h1] eqn:Hloop; [|done].
  apply install_loop_done in Hloop as (s & f & -> & Hperm & Hs & Hf & _).
  cbn [write_setup_status]. by intros [= <- <- _].
Qed.

(** X18. Which list a module lands in.  Unless dependencies are switched
    off, a module that is not preloaded is among the failed and a preloaded
    module that declares no dependency is among the succeeded; with
    [ignore_failed_deps] the failed are unknown modules only. *)
Theorem install_verdicts (modules succeeded failed : list string)
    (h h' : Host) :
  no_deps config = false →
  install sha1_deps sha1_command sha1_playbook runner sudo_accepts config
          env modules h
  = (Done (succeeded, failed), h') →
  (∀ m : string, m ∈ modules → preloaded h !! m = None → m ∈ failed)
  ∧ (∀ (m : string) (p : preloaded_module),
       m ∈ modules → preloaded h !! m = Some p →
       dependency_count (deps p) = 0 → m ∈ succeeded)
  ∧ (ignore_failed_deps config = true →
     ∀ m : string, m ∈ failed → preloaded h !! m = None).
Proof.
  intros Hno. unfold install, try_finally.
  destruct (install_loop _ _ _ _ _ _ _ modules [] [] h)
    as [[lists|e] h1] eqn:Hloop; [|done].
  apply install_loop_done in Hloop
    as (s & f & -> & Hperm & _ & _ & _ & _ & Hgood & Hbad).
  cbn [write_setup_status]. intros [= <- <- _].
  assert (∀ m : string, m ∈ modules → m ∈ s ∨ m ∈ f) as Hsplit.
  { intros m Hm. rewrite <- Hperm in Hm. by apply elem_of_app in Hm. }
  split; [|split].
  - intros m Hm Hunknown. destruct (Hsplit m Hm) as [Hs|Hf]; [|done].
    apply Hgood in Hs; [|done].
    rewrite lookup_dependency_counts, Hunknown in Hs. by destruct Hs.
  - intros m p Hm Hp Hzero. destruct (Hsplit m Hm) as [Hs|Hf]; [done|].
    apply Hbad in Hf as (_ & Hcount & _).
    rewrite lookup_dependency_counts, Hp in Hcount.
    cbn [fmap option_fmap option_map] in Hcount. by rewrite Hzero in Hcount.
  - intros Hign m Hf. apply Hbad in Hf as (_ & _ & Hunknown).
    specialize (Hunknown Hign).
    rewrite lookup_dependency_counts in Hunknown.
    by destruct (preloaded h !! m).
Qed.

(** X19. With [no_deps] every module is taken as set up: [install] returns
    all of them as succeeded and none as failed, prompts for nothing, runs
    nothing, and changes nothing but the status file, which it writes from
    the unchanged status. *)
Theorem install_no_deps (modules : list string) (h : Host) :
  no_deps config = true →
  install sha1_deps sha1_command sha1_playbook runner sudo_accepts config
          env modules h
  = (Done (modules, []), written h).
Proof.
  intros Hno. unfold install, try_finally.
  assert (∀ succeeded failed : list string,
            install_loop sha1_deps sha1_command sha1_playbook runner
                         sudo_accepts config env modules succeeded failed h
            = (Done ((succeeded ++ modules)%list, failed), h)) as ->.
  { induction modules as [|m modules IH]; intros succeeded failed.
    - by rewrite app_nil_r.
    - cbn [install_loop]. rewrite dbind_run. unfold install_one.
      rewrite Hno. unfold mret at 1, D_ret. cbn [settle fst snd].
      by rewrite IH, <- app_assoc. }
  reflexivity.
Qed.

(** X20. [install] writes the status file whatever happens: when it returns
    and when it raises, the file holds the setup status as it stands at
    that moment, with every outcome recorded before an exception. *)
Theorem install_always_writes_status (modules : list string) (h : Host) :
  status_file
    (install sha1_deps sha1_command sha1_playbook runner sudo_accepts config
             env modules h).2
  = Some (setup_status
            (install sha1_deps sha1_command sha1_playbook runner
                     sudo_accepts config env modules h).2).
Proof.
  unfold install, try_finally.
  by destruct (install_loop _ _ _ _ _ _ _ modules [] [] h) as [[lists|e] h1].
Qed.

(** X21. A recorded outcome is reused.  For a preloaded module with
    dependencies whose hash is in the setup status, [install] neither
    prompts nor runs anything unless [force_deps] is set, or the recorded
    outcome is a failure and [retry_deps] is set: the module succeeds if the
    record says so or failures are ignored, and fails otherwise. *)
Theorem install_reuses_record (m : string) (p : preloaded_module)
    (recorded : bool) (h : Host) :
  no_deps config = false →
  preloaded h !! m = Some p →
  0 < dependency_count (deps p) →
  setup_status h !! sha1_deps (deps p) = Some recorded →
  force_deps config = false →
  recorded = true ∨ retry_deps config = false →
  install sha1_deps sha1_command sha1_playbook runner sudo_accepts config
          env [m] h
  = (Done (settle (recorded || ignore_failed_deps config) m [] []),
     written h).
Proof.
  intros Hno Hp Hcount Hrec Hforce Hretry.
  unfold install, try_finally. cbn [install_loop].
  rewrite dbind_run. unfold install_one. rewrite Hno.
  rewrite dbind_run. cbn [get_preloaded]. rewrite Hp.
  rewrite dbind_run. cbn [get_setup_status]. rewrite Hrec.
  destruct (Nat.leb_spec (dependency_count (deps p)) 0) as [|_]; [lia|].
  assert (wants_setup config (Some recorded) = false) as ->.
  { unfold wants_setup. rewrite Hforce.
    destruct recorded; [done|]. destruct Hretry as [Heq | ->]; done. }
  unfold mret at 1, D_ret. unfold mret, D_ret.
  cbn [write_setup_status default from_option id]. unfold written.
  by destruct (settle _ _ _ _).
Qed.

(** X22. A fresh outcome is recorded under the hash the dependencies had
    before they were installed.  For a preloaded module with dependencies
    that needs no root and is due for setup, [install] runs
    [install_module], stores its result under that hash, leaves every other
    record alone, and writes the status file with the new record. *)
Theorem install_records_outcome (m : string) (p : preloaded_module)
    (success : bool) (h h1 : Host) :
  no_deps config = false →
  preloaded h !! m = Some p →
  0 < dependency_count (deps p) →
  wants_setup config (setup_status h !! sha1_deps (deps p)) = true →
  needs_sudo p = false →
  install_module sha1_command sha1_playbook runner config env m h
  = (Done success, h1) →
  ∃ h' : Host,
    install sha1_deps sha1_command sha1_playbook runner sudo_accepts
            config env [m] h
    = (Done (settle (success || ignore_failed_deps config) m [] []), h')
    ∧ setup_status h' = <[sha1_deps (deps p) := success]> (setup_status h)
    ∧ status_file h' = Some (setup_status h')
    ∧ effects h' = effects h1.
Proof.
  intros Hno Hp Hcount Hwants Hsudo Hmod.
  pose proof (install_module_counts _ _ _ _ Hmod) as [_ Hstatus].
  unfold install, try_finally. cbn [install_loop].
  rewrite dbind_run. unfold install_one. rewrite Hno.
  rewrite dbind_run. cbn [get_preloaded]. rewrite Hp.
  rewrite dbind_run. cbn [get_setup_status].
  destruct (Nat.leb_spec (dependency_count (deps p)) 0) as [|_]; [lia|].
  rewrite Hwants, Hsudo. rewrite dbind_run. unfold mret at 1, D_ret.
  rewrite dbind_run, Hmod. rewrite dbind_run. cbn [set_setup_status].
  unfold mret at 1, D_ret. unfold mret, D_ret.
  cbn [write_setup_status preloaded setup_status sudo_password typed sigint
       run_count status_file effects fst snd].
  destruct (settle _ _ _ _) as [succeeded failed]. cbn [fst snd].
  eexists. split; [reflexivity|].
  cbn [setup_status status_file effects]. rewrite Hstatus.
  split; [reflexivity|]. split; reflexivity.
Qed.

(** ** The tasks of [shell] *)

Lemma entries_get_set (k v : string) (entries : list (string * string)) :
  entries_get k (entries_set k v entries) = Some v.
Proof.
  induction entries as [|[k' v'] entries IH]; cbn [entries_set entries_get].
  - by rewrite String.eqb_refl.
  - destruct (String.eqb k k') eqn:Hk; cbn [entries_get];
      by rewrite ?String.eqb_refl, ?Hk.
Qed.

(** X23. When [shell] gets as far as Ansible it has one task per command,
    and every task is guarded by the file it touches: its command line ends
    in ["&& touch"] of exactly the file named under [creates], so a step
    that ran to its end is skipped the next time; and every task runs under
    [/bin/bash]. *)
Theorem shell_tasks_guarded (module : string) (i : nat)
    (commands : list command) (ts : list task) :
  (shell_tasks sha1_command config module i commands).1 = Done ts →
  length ts = length commands ∧ Forall guarded_by_own_file ts.
Proof.
  revert i ts. induction commands as [|c commands IH]; intros i ts.
  - intros [= <-]. by split.
  - cbn [shell_tasks].
    destruct (entries_get "cmd" _) as [line|] eqn:Hcmd; [|done].
    specialize (IH (S i)).
    destruct (shell_tasks sha1_command config module (S i) commands)
      as [[ts'|e] left]; [|done].
    cbn [fst]. intros [= <-]. destruct (IH ts' eq_refl) as [Hlen Hall].
    split; [cbn [length]; by rewrite Hlen|].
    constructor; [|done]. cbn [guarded_by_own_file]. split; [done|].
    exists line. apply entries_get_set.
Qed.

(** X24. [shell] writes into the command dictionaries it is given.  A
    command given as a string is left as it is; a command given as a
    dictionary comes out with the ["&& touch"] of its status file appended
    to its ["cmd"] entry. *)
Theorem shell_tasks_rewrites_dicts (module : string) (i : nat)
    (commands : list command) (ts : list task) :
  (shell_tasks sha1_command config module i commands).1 = Done ts →
  Forall2
    (λ before after,
       match before with
       | CmdStr _ => after = before
       | CmdDict entries =>
           ∃ line file : string,
             entries_get "cmd" entries = Some line
             ∧ after
               = CmdDict (entries_set "cmd" (line ++ " && touch " ++ file)
                                      entries)
       end)
    commands (shell_tasks sha1_command config module i commands).2.
Proof.
  revert i ts. induction commands as [|c commands IH]; intros i ts.
  - intros _. constructor.
  - cbn [shell_tasks].
    destruct (entries_get "cmd" _) as [line|] eqn:Hcmd; [|done].
    specialize (IH (S i)).
    destruct (shell_tasks sha1_command config module (S i) commands)
      as [[ts'|e] left]; [|done].
    cbn [fst snd] in *. intros _. constructor; [|by eapply IH].
    destruct c as [s|entries]; [done|]. by eexists _, _.
Qed.

End InstallerFacts.

(** ** The installer on the farm *)

Ltac computed := vm_compute; reflexivity.

(** Everything asked for at once, with one mistyped password: [nmap] is
    installed as root, [wappalyzer] fails on [pip], [httpx] runs its shell
    steps, [aggregate] has nothing to set up. *)
Example farm_install :
  (Farm.install Farm.desktop Farm.wanted Farm.attended).1
  = Done (["nmap"; "httpx"; "aggregate"], ["wappalyzer"; "nope"]).
Proof. computed. Qed.

Lemma install_module_runs_every_kind_witness :
  preloaded (Farm.fresh []) !! "httpx" = Some Farm.httpx
  ∧ Farm.install_module Farm.desktop "httpx" (Farm.fresh [])
    = (Done true,
       (Farm.install_module Farm.desktop "httpx" (Farm.fresh [])).2)
  ∧ ∃ new : list effect,
      effects (Farm.install_module Farm.desktop "httpx" (Farm.fresh [])).2
      = (effects (Farm.fresh []) ++ new)%list
      ∧ true = forallb run_ok new
      ∧ length (List.filter is_run new)
        = kinds_to_run Farm.desktop (deps Farm.httpx).
Proof.
  assert (preloaded (Farm.fresh []) !! "httpx" = Some Farm.httpx) as Hp
    by computed.
  assert (Farm.install_module Farm.desktop "httpx" (Farm.fresh [])
          = (Done true,
             (Farm.install_module Farm.desktop "httpx" (Farm.fresh [])).2))
    as Hrun by computed.
  split; [exact Hp|]. split; [exact Hrun|].
  exact (install_module_runs_every_kind Farm.hash_command Farm.hash_playbook
           Farm.runner Farm.config Farm.desktop "httpx" Farm.httpx
           (Farm.fresh []) _ true Hp Hrun).
Defined.

Lemma install_module_without_apt_witness :
  preloaded (Farm.fresh []) !! "nmap" = Some Farm.nmap
  ∧ has_apt Farm.laptop = false
  ∧ deps_apt (deps Farm.nmap) = ["nmap"]
  ∧ Farm.install_module Farm.laptop "nmap" (Farm.fresh [])
    = (Done true, Farm.fresh []).
Proof.
  assert (preloaded (Farm.fresh []) !! "nmap" = Some Farm.nmap) as Hp
    by computed.
  split; [exact Hp|]. split; [reflexivity|]. split; [reflexivity|].
  exact (install_module_without_apt Farm.hash_command Farm.hash_playbook
           Farm.runner Farm.config Farm.laptop "nmap" Farm.nmap
           (Farm.fresh []) Hp eq_refl eq_refl eq_refl eq_refl).
Defined.

Lemma farm_install_run :
  Farm.install Farm.desktop Farm.wanted Farm.attended
  = (Done (["nmap"; "httpx"; "aggregate"], ["wappalyzer"; "nope"]),
     (Farm.install Farm.desktop Farm.wanted Farm.attended).2).
Proof. computed. Defined.

Lemma install_sorts_every_module_witness :
  Farm.install Farm.desktop Farm.wanted Farm.attended
  = (Done (["nmap"; "httpx"; "aggregate"], ["wappalyzer"; "nope"]),
     (Farm.install Farm.desktop Farm.wanted Farm.attended).2)
  ∧ (["nmap"; "httpx"; "aggregate"] ++ ["wappalyzer"; "nope"])%list
    ≡ₚ Farm.wanted
  ∧ ["nmap"; "httpx"; "aggregate"] `sublist_of` Farm.wanted
  ∧ ["wappalyzer"; "nope"] `sublist_of` Farm.wanted.
Proof.
  split; [exact farm_install_run|].
  exact (install_sorts_every_module Farm.hash_deps Farm.hash_command
           Farm.hash_playbook Farm.runner Farm.sudo_accepts Farm.config
           Farm.desktop Farm.wanted _ _ Farm.attended _ farm_install_run).
Defined.

Lemma install_verdicts_witness :
  no_deps Farm.config = false
  ∧ preloaded Farm.attended !! "nope" = None
  ∧ preloaded Farm.attended !! "aggregate" = Some Farm.aggregate
  ∧ "nope" ∈ ["wappalyzer"; "nope"]
  ∧ "aggregate" ∈ ["nmap"; "httpx"; "aggregate"].
Proof.
  assert (preloaded Farm.attended !! "nope" = None) as Hnope by computed.
  assert (preloaded Farm.attended !! "aggregate" = Some Farm.aggregate)
    as Haggregate by computed.
  split; [reflexivity|]. split; [exact Hnope|]. split; [exact Haggregate|].
  destruct (install_verdicts Farm.hash_deps Farm.hash_command
              Farm.hash_playbook Farm.runner Farm.sudo_accepts Farm.config
              Farm.desktop Farm.wanted _ _ Farm.attended _ eq_refl
              farm_install_run)
    as (Hunknown & Hempty & _).
  split.
  - apply Hunknown; [|exact Hnope]. unfold Farm.wanted.
    do 4 apply list_elem_of_further. apply list_elem_of_here.
  - apply (Hempty "aggregate" Farm.aggregate); [|exact Haggregate|reflexivity].
    unfold Farm.wanted. do 3 apply list_elem_of_further.
    apply list_elem_of_here.
Defined.

Lemma install_no_deps_witness :
  no_deps Farm.offline = true
  ∧ Farm.install_offline Farm.wanted Farm.attended
    = (Done (Farm.wanted, []), written Farm.attended).
Proof.
  split; [reflexivity|].
  exact (install_no_deps Farm.hash_deps Farm.hash_command Farm.hash_playbook
           Farm.runner Farm.sudo_accepts Farm.offline Farm.desktop
           Farm.wanted Farm.attended eq_refl).
Defined.

Lemma install_reuses_record_witness :
  preloaded Farm.seasoned !! "nmap" = Some Farm.nmap
  ∧ setup_status Farm.seasoned !! Farm.hash_deps (deps Farm.nmap) = Some true
  ∧ Farm.install Farm.desktop ["nmap"] Farm.seasoned
    = (Done (["nmap"], []), written Farm.seasoned).
Proof.
  assert (preloaded Farm.seasoned !! "nmap" = Some Farm.nmap) as Hp
    by computed.
  assert (setup_status Farm.seasoned !! Farm.hash_deps (deps Farm.nmap)
          = Some true) as Hrec by computed.
  split; [exact Hp|]. split; [exact Hrec|].
  assert (0 < dependency_count (deps Farm.nmap)) as Hcount by (cbn; lia).
  exact (install_reuses_record Farm.hash_deps Farm.hash_command
           Farm.hash_playbook Farm.runner Farm.sudo_accepts Farm.config
           Farm.desktop "nmap" Farm.nmap true Farm.seasoned
           eq_refl Hp Hcount Hrec eq_refl (or_introl eq_refl)).
Defined.

Lemma install_records_outcome_witness :
  preloaded (Farm.fresh []) !! "wappalyzer" = Some Farm.wappalyzer
  ∧ Farm.install_module Farm.desktop "wappalyzer" (Farm.fresh [])
    = (Done false,
       (Farm.install_module Farm.desktop "wappalyzer" (Farm.fresh [])).2)
  ∧ ∃ h' : Host,
      Farm.install Farm.desktop ["wappalyzer"] (Farm.fresh [])
      = (Done ([], ["wappalyzer"]), h')
      ∧ setup_status h'
        = <[Farm.hash_deps (deps Farm.wappalyzer) := false]> ∅.
Proof.
  assert (preloaded (Farm.fresh []) !! "wappalyzer" = Some Farm.wappalyzer)
    as Hp by computed.
  assert (Farm.install_module Farm.desktop "wappalyzer" (Farm.fresh [])
          = (Done false,
             (Farm.install_module Farm.desktop "wappalyzer"
                                  (Farm.fresh [])).2)) as Hmod
    by computed.
  assert (wants_setup Farm.config
            (setup_status (Farm.fresh [])
             !! Farm.hash_deps (deps Farm.wappalyzer)) = true) as Hwants
    by computed.
  split; [exact Hp|]. split; [exact Hmod|].
  assert (0 < dependency_count (deps Farm.wappalyzer)) as Hcount
    by (cbn; lia).
  destruct (install_records_outcome Farm.hash_deps Farm.hash_command
              Farm.hash_playbook Farm.runner Farm.sudo_accepts Farm.config
              Farm.desktop "wappalyzer" Farm.wappalyzer false
              (Farm.fresh []) _ eq_refl Hp Hcount Hwants eq_refl Hmod)
    as (h' & Hrun & Hstatus & _).
  exists h'. split; [exact Hrun | exact Hstatus].
Defined.

Lemma farm_httpx_tasks :
  ∃ ts : list task,
    (Farm.shell_tasks "httpx" 0 (deps_shell (deps Farm.httpx))).1 = Done ts.
Proof. eexists. computed. Defined.

Lemma shell_tasks_guarded_witness :
  ∃ ts : list task,
    (Farm.shell_tasks "httpx" 0 (deps_shell (deps Farm.httpx))).1 = Done ts
    ∧ length ts = length (deps_shell (deps Farm.httpx))
    ∧ Forall guarded_by_own_file ts.
Proof.
  destruct farm_httpx_tasks as [ts Hts]. exists ts. split; [exact Hts|].
  exact (shell_tasks_guarded Farm.hash_command Farm.config "httpx" 0
           (deps_shell (deps Farm.httpx)) ts Hts).
Defined.

Lemma shell_tasks_rewrites_dicts_witness :
  ∃ ts : list task,
    (Farm.shell_tasks "httpx" 0 (deps_shell (deps Farm.httpx))).1 = Done ts
    ∧ Forall2
        (λ before after,
           match before with
           | CmdStr _ => after = before
           | CmdDict entries =>
               ∃ line file : string,
                 entries_get "cmd" entries = Some line
                 ∧ after
                   = CmdDict
                       (entries_set "cmd" (line ++ " && touch " ++ file)
                                    entries)
           end)
        (deps_shell (deps Farm.httpx))
        (Farm.shell_tasks "httpx" 0 (deps_shell (deps Farm.httpx))).2.
Proof.
  destruct farm_httpx_tasks as [ts Hts]. exists ts. split; [exact Hts|].
  exact (shell_tasks_rewrites_dicts Farm.hash_command Farm.config "httpx" 0
           (deps_shell (deps Farm.httpx)) ts Hts).
Defined.

(** The shell dependencies of [httpx] once it has been installed: the
    dictionary command carries the suffix, and a second round with
    [force_deps] would append another. *)
Example farm_httpx_after_install :
  deps_shell
  <$> (deps <$> preloaded (Farm.install Farm.desktop ["httpx"]
                             (Farm.fresh [])).2 !! "httpx")
  = Some
      [CmdStr "go install httpx@latest";
       CmdDict
         [("cmd",
           "make install && touch /root/.bbot/cache/depsinstaller/command_status/httpx-1");
          ("chdir", "/opt/httpx")]].
Proof. computed. Qed.

(** Each run on the farm leaves handler 7 behind; [ansible_run] puts
    handler 2 back. *)
Example farm_sigint_restored :
  sigint (Farm.install Farm.desktop Farm.wanted Farm.attended).2 = 2
  ∧ run_count (Farm.install Farm.desktop Farm.wanted Farm.attended).2 = 3.
Proof. split; computed. Qed.

(** The terminal runs dry before a password is accepted: [install] raises
    [EOFError], and the status file is written all the same. *)
Example farm_install_unattended :
  (Farm.install Farm.desktop ["aggregate"; "nmap"] (Farm.fresh ["wrong"])).1
  = Fail EOFError
  ∧ status_file
      (Farm.install Farm.desktop ["aggregate"; "nmap"]
                    (Farm.fresh ["wrong"])).2
    = Some ∅.
Proof. split; computed. Qed.

(** ** What [ansible_run] hands to Ansible and what it makes of the answer *)

Lemma dict_get_set_eq (k : string) (v : pyval) (d : pydict) :
  dict_get k (dict_set k v d) = Some v.
Proof.
  induction d as [|[k' v'] d IH]; cbn [dict_set dict_get].
  - by rewrite String.eqb_refl.
  - destruct (String.eqb k k') eqn:Hk; cbn [dict_get];
      by rewrite ?String.eqb_refl, ?Hk.
Qed.

Lemma dict_get_set_ne (k k' : string) (v : pyval) (d : pydict) :
  k ≠ k' → dict_get k (dict_set k' v d) = dict_get k d.
Proof.
  intros Hne. apply String.eqb_neq in Hne.
  induction d as [|[k0 v0] d IH]; cbn [dict_set dict_get].
  - by rewrite Hne.
  - destruct (String.eqb k' k0) eqn:Hk0; cbn [dict_get].
    + apply String.eqb_eq in Hk0 as <-. by rewrite Hne.
    + by rewrite IH.
Qed.

Lemma dict_get_update_absent (k : string) (d other : pydict) :
  dict_get k other = None →
  dict_get k (dict_update d other) = dict_get k d.
Proof.
  unfold dict_update. revert d.
  induction other as [|[k' v'] other IH]; intros d; [done|].
  cbn [dict_get foldl fst snd].
  destruct (String.eqb k k') eqn:Hk; [done|]. intros Habsent.
  rewrite IH by done. apply dict_get_set_ne. by apply String.eqb_neq.
Qed.

Lemma first_failure_spec (events : list run_event) (h : Host) :
  match (first_failure events h).1 with
  | Done err =>
      (err = EmptyString ∧ forallb (λ e, negb (is_failure e)) events = true)
      ∨ ∃ (before : list run_event) (e : run_event)
          (after : list run_event),
          events = (before ++ e :: after)%list
          ∧ forallb (λ e, negb (is_failure e)) before = true
          ∧ is_failure e = true
          ∧ event_msg e = Some err
  | Fail _ =>
      ∃ (before : list run_event) (e : run_event) (after : list run_event),
        events = (before ++ e :: after)%list
        ∧ forallb (λ e, negb (is_failure e)) before = true
        ∧ is_failure e = true
        ∧ event_msg e = None
  end.
Proof.
  induction events as [|e events IH]; [by left|].
  cbn [first_failure]. fold (is_failure e).
  destruct (is_failure e) eqn:He.
  - destruct (event_msg e) as [msg|] eqn:Hmsg; cbn [fst].
    + right. by exists [], e, events.
    + by exists [], e, events.
  - destruct (first_failure events h).1 as [err|exn].
    + destruct IH as [[-> Hall] | (before & e' & after & -> & Hb & He' & Hm)].
      * left. split; [done|]. cbn [forallb]. by rewrite He.
      * right. exists (e :: before), e', after. cbn [forallb].
        by rewrite He.
    + destruct IH as (before & e' & after & -> & Hb & He' & Hm).
      exists (e :: before), e', after. cbn [forallb]. by rewrite He.
Qed.

Section RunnerFacts.

Variable sha1_playbook : option (list task) → string.
Variable runner : nat → run_call → run_answer.
Variable config : settings.

(** X25. What [ansible_run] makes of a run that returns.  The flag says
    whether the status is "successful" and nothing else: failed events do
    not lower it.  The error text is the message of the first
    [runner_on_failed] event, or empty when there is none; when that event
    carries no message the call raises [KeyError] instead of returning. *)
Theorem ansible_run_outcome (tasks : option (list task))
    (module : option string) (args ansible_args : option pydict) (h : Host)
    (call : run_call) (status : string) (events : list run_event)
    (handler : nat) (dir : string) :
  effects (ansible_run sha1_playbook runner config tasks module args
                       ansible_args h).2
  = (effects h ++ [Wiped dir; Ran call (RunReturns status events handler)])%list →
  match (ansible_run sha1_playbook runner config tasks module args
                     ansible_args h).1 with
  | Done (success, err) =>
      success = String.eqb status "successful"
      ∧ ((err = EmptyString
          ∧ forallb (λ e, negb (is_failure e)) events = true)
         ∨ ∃ (before : list run_event) (e : run_event)
             (after : list run_event),
             events = (before ++ e :: after)%list
             ∧ forallb (λ e, negb (is_failure e)) before = true
             ∧ is_failure e = true
             ∧ event_msg e = Some err)
  | Fail exn =>
      exn = KeyError "msg"
      ∧ ∃ (before : list run_event) (e : run_event)
          (after : list run_event),
          events = (before ++ e :: after)%list
          ∧ forallb (λ e, negb (is_failure e)) before = true
          ∧ is_failure e = true
          ∧ event_msg e = None
  end.
Proof.
  unfold ansible_run.
  rewrite dbind_run. cbn [get_sudo_password].
  rewrite dbind_run. cbn [note].
  rewrite dbind_run. cbn [getsignal sigint].
  rewrite dbind_run. unfold try_finally, run.
  cbn [preloaded setup_status sudo_password typed sigint run_count
       status_file effects].
  match goal with
  | |- context [runner (run_count h) ?c] =>
      destruct (runner (run_count h) c) as [msg hd|st evs hd] eqn:Hanswer
  end.
  - cbn [signal snd effects]. rewrite <- app_assoc. cbn [app].
    intros Heq%app_inv_head. by injection Heq.
  - cbn [signal preloaded setup_status sudo_password typed sigint run_count
         status_file effects fst snd].
    rewrite dbind_run.
    match goal with
    | |- context [first_failure evs ?h0] =>
        pose proof (first_failure_spec evs h0) as Hspec;
        pose proof (first_failure_host evs h0) as Hhost;
        destruct (first_failure evs h0) as [[err|exn] h1] eqn:Hfirst
    end; cbn [fst snd] in *; subst h1; cbn [effects];
      rewrite <- app_assoc; cbn [app];
      intros Heq%app_inv_head; injection Heq as _ _ <- <- _.
    + split; [done | exact Hspec].
    + split; [by apply first_failure_fail in Hfirst | exact Hspec].
Qed.

(** X26. Once a sudo password is known, every run gets it: whatever is
    installed, [ansible_run] hands Ansible the stored password as the
    [ansible_become_password] of localhost, and hands it none when none is
    stored; the run is always against the host pattern ["localhost"] with
    the module it was asked for. *)
Theorem ansible_run_forwards_password (tasks : option (list task))
    (module : option string) (args ansible_args : option pydict) (h : Host) :
  (∀ more : pydict,
     ansible_args = Some more →
     dict_get "ansible_become_password" more = None) →
  ∃ (dir : string) (call : run_call) (answer : run_answer),
    effects (ansible_run sha1_playbook runner config tasks module args
                         ansible_args h).2
    = (effects h ++ [Wiped dir; Ran call answer])%list
    ∧ dict_get "ansible_become_password" (rc_inventory call)
      = PyStr <$> sudo_password h
    ∧ rc_host_pattern call = "localhost"
    ∧ rc_module call = module.
Proof.
  intros Hargs.
  assert (dict_get "ansible_become_password"
            match ansible_args with
            | Some more =>
                dict_update [("ansible_connection", PyStr "local")] more
            | None => [("ansible_connection", PyStr "local")]
            end = None) as Hnone.
  { destruct ansible_args as [more|]; [|done].
    by rewrite dict_get_update_absent by auto. }
  unfold ansible_run.
  rewrite dbind_run. cbn [get_sudo_password].
  rewrite dbind_run. cbn [note].
  rewrite dbind_run. cbn [getsignal sigint].
  rewrite dbind_run. unfold try_finally, run.
  cbn [preloaded setup_status sudo_password typed sigint run_count
       status_file effects].
  match goal with
  | |- context [runner (run_count h) ?c] =>
      set (call := c);
      assert (dict_get "ansible_become_password" (rc_inventory call)
              = PyStr <$> sudo_password h) as Hpw
  end.
  { subst call. cbn [rc_inventory].
    destruct (sudo_password h) as [p|]; [apply dict_get_set_eq | done]. }
  destruct (runner (run_count h) call) as [msg hd|st evs hd] eqn:Hanswer.
  - cbn [signal snd effects]. rewrite <- app_assoc. cbn [app].
    by eexists _, call, _.
  - cbn [signal preloaded setup_status sudo_password typed sigint run_count
         status_file effects fst snd].
    rewrite dbind_run.
    match goal with
    | |- context [first_failure evs ?h0] =>
        pose proof (first_failure_host evs h0) as Hhost;
        destruct (first_failure evs h0) as [[err|exn] h1]
    end; cbn [snd] in Hhost; subst h1; cbn [snd effects];
      rewrite <- app_assoc; cbn [app]; by eexists _, call, _.
Qed.

End RunnerFacts.

(** With the password known, a [pip] installation as the user gets it
    too. *)
Lemma ansible_run_forwards_password_witness :
  dict_get "ansible_become_password"
    [("ansible_python_interpreter", PyStr "/usr/bin/python3")] = None
  ∧ ∃ (dir : string) (call : run_call) (answer : run_answer),
      effects
        (ansible_run Farm.hash_playbook Farm.runner Farm.config None
           (Some "pip") (Some [("name", PyStr "python-Wappalyzer")])
           (Some [("ansible_python_interpreter", PyStr "/usr/bin/python3")])
           Farm.unlocked).2
      = (effects Farm.unlocked ++ [Wiped dir; Ran call answer])%list
      ∧ dict_get "ansible_become_password" (rc_inventory call)
        = Some (PyStr "hunter2")
      ∧ rc_host_pattern call = "localhost"
      ∧ rc_module call = Some "pip".
Proof.
  split; [reflexivity|].
  apply (ansible_run_forwards_password Farm.hash_playbook Farm.runner
           Farm.config None (Some "pip")
           (Some [("name", PyStr "python-Wappalyzer")])
           (Some [("ansible_python_interpreter", PyStr "/usr/bin/python3")])
           Farm.unlocked).
  intros more [= <-]. reflexivity.
Defined.

(** The failed [pip] run on the farm: status "failed", so no success. *)
Lemma ansible_run_outcome_witness :
  ∃ (dir : string) (call : run_call),
    effects
      (ansible_run Farm.hash_playbook Farm.runner Farm.config None
         (Some "pip") (Some [("name", PyStr "python-Wappalyzer")]) None
         (Farm.fresh [])).2
    = (effects (Farm.fresh [])
       ++ [Wiped dir;
           Ran call
             (RunReturns "failed"
                [mkRunEvent "runner_on_start" None;
                 mkRunEvent "runner_on_failed" (Some "no route to host")]
                7)])%list
    ∧ ∀ (success : bool) (err : string),
        (ansible_run Farm.hash_playbook Farm.runner Farm.config None
           (Some "pip") (Some [("name", PyStr "python-Wappalyzer")]) None
           (Farm.fresh [])).1
        = Done (success, err) →
        success = String.eqb "failed" "successful".
Proof.
  eexists _, _.
  assert (effects
            (ansible_run Farm.hash_playbook Farm.runner Farm.config None
               (Some "pip") (Some [("name", PyStr "python-Wappalyzer")]) None
               (Farm.fresh [])).2
          = (effects (Farm.fresh [])
             ++ [Wiped _;
                 Ran _
                   (RunReturns "failed"
                      [mkRunEvent "runner_on_start" None;
                       mkRunEvent "runner_on_failed"
                                  (Some "no route to host")]
                      7)])%list) as Heffects by computed.
  split; [exact Heffects|].
  intros success err Hrun.
  pose proof (ansible_run_outcome Farm.hash_playbook Farm.runner Farm.config
                None (Some "pip") (Some [("name", PyStr "python-Wappalyzer")])
                None (Farm.fresh []) _ _ _ _ _ Heffects) as Hout.
  rewrite Hrun in Hout. exact (proj1 Hout).
Defined.

(** The same run, evaluated. *)
Example farm_pip_outcome :
  (Farm.pip_install ["python-Wappalyzer"] (Farm.fresh [])).1 = Done false.
Proof. computed. Qed.
